(** * Training Neural Networks (intro-to-pytorch, part 3)

    A verification development for the two notebooks of the repository: the
    solution notebook and the exercises notebook.  The file has three layers.

    - The code cells of both notebooks, transcribed line by line, with a
      small lexical analysis of Python lines (leading keyword, called names).
    - A shallow embedding of the cells that train the network, as programs
      in a state-and-exception monad over an interface for the deep-learning
      framework; every framework call is recorded in an event trace.
    - A model of the two tensor reshaping calls, [view] and [resize_]. *)

From Stdlib Require Import String Ascii List Bool Arith ZArith QArith Qround Lia.
Import ListNotations.
Close Scope Q_scope.
Open Scope string_scope.
Open Scope list_scope.

(** * The notebooks as data *)

Inductive notebook := Solution | Exercises.

(** A code cell: its execution count and its source lines (the trailing
    newline of each line is dropped).  Markdown cells hold no code and are
    left out. *)
Record cell := { execution_count : option nat; source : list string }.

(** The double-quote character and the empty line. *)
Definition dq : string := String (ascii_of_nat 34) EmptyString.
Definition blank : string := EmptyString.

(** Code cell 1 of the solution notebook (src/unnamed/part_000), execution count 1. *)
Definition solution_cell_1 : cell :=
  {| execution_count := Some 1;
     source := [
       "import torch";
       "from torch import nn";
       "import torch.nn.functional as F";
       "from torchvision import datasets, transforms";
       blank;
       "# Define a transform to normalize the data";
       "transform = transforms.Compose([transforms.ToTensor(),";
       "                                transforms.Normalize((0.5,), (0.5,)),";
       "                              ])";
       "# Download and load the training data";
       "trainset = datasets.MNIST('~/.pytorch/MNIST_data/', download=True, train=True, transform=transform)";
       "trainloader = torch.utils.data.DataLoader(trainset, batch_size=64, shuffle=True)"
     ] |}.

(** Code cell 2 of the solution notebook (src/unnamed/part_000), execution count 2. *)
Definition solution_cell_2 : cell :=
  {| execution_count := Some 2;
     source := [
       "# Build a feed-forward network";
       "model = nn.Sequential(nn.Linear(784, 128),";
       "                      nn.ReLU(),";
       "                      nn.Linear(128, 64),";
       "                      nn.ReLU(),";
       "                      nn.Linear(64, 10))";
       blank;
       "# Define the loss";
       "criterion = nn.CrossEntropyLoss()";
       blank;
       "# Get our data";
       "images, labels = next(iter(trainloader))";
       "# Flatten images";
       "images = images.view(images.shape[0], -1)";
       blank;
       "# Forward pass, get our logits";
       "logits = model(images)";
       "# Calculate the loss with the logits and the labels";
       "loss = criterion(logits, labels)";
       blank;
       "print(loss)"
     ] |}.

(** Code cell 3 of the solution notebook (src/unnamed/part_000), execution count 3. *)
Definition solution_cell_3 : cell :=
  {| execution_count := Some 3;
     source := [
       "## Solution";
       blank;
       "# Build a feed-forward network";
       "model = nn.Sequential(nn.Linear(784, 128),";
       "                      nn.ReLU(),";
       "                      nn.Linear(128, 64),";
       "                      nn.ReLU(),";
       "                      nn.Linear(64, 10),";
       "                      nn.LogSoftmax(dim=1))";
       blank;
       "# Define the loss";
       "criterion = nn.NLLLoss()";
       blank;
       "# Get our data";
       "images, labels = next(iter(trainloader))";
       "# Flatten images";
       "images = images.view(images.shape[0], -1)";
       blank;
       "# Forward pass, get our log-probabilities";
       "logps = model(images)";
       "# Calculate the loss with the logps and the labels";
       "loss = criterion(logps, labels)";
       blank;
       "print(loss)"
     ] |}.

(** Code cell 4 of the solution notebook (src/unnamed/part_000), execution count 4. *)
Definition solution_cell_4 : cell :=
  {| execution_count := Some 4;
     source := [
       "x = torch.randn(2,2, requires_grad=True)";
       "print(x)"
     ] |}.

(** Code cell 5 of the solution notebook (src/unnamed/part_000), execution count 5. *)
Definition solution_cell_5 : cell :=
  {| execution_count := Some 5;
     source := [
       "y = x**2";
       "print(y)"
     ] |}.

(** Code cell 6 of the solution notebook (src/unnamed/part_000), execution count 6. *)
Definition solution_cell_6 : cell :=
  {| execution_count := Some 6;
     source := [
       "## grad_fn shows the function that generated this variable";
       "print(y.grad_fn)"
     ] |}.

(** Code cell 7 of the solution notebook (src/unnamed/part_000), execution count 7. *)
Definition solution_cell_7 : cell :=
  {| execution_count := Some 7;
     source := [
       "z = y.mean()";
       "print(z)"
     ] |}.

(** Code cell 8 of the solution notebook (src/unnamed/part_000), execution count 8. *)
Definition solution_cell_8 : cell :=
  {| execution_count := Some 8;
     source := [
       "print(x.grad)"
     ] |}.

(** Code cell 9 of the solution notebook (src/unnamed/part_000), execution count 9. *)
Definition solution_cell_9 : cell :=
  {| execution_count := Some 9;
     source := [
       "z.backward()";
       "print(x.grad)";
       "print(x/2)"
     ] |}.

(** Code cell 10 of the solution notebook (src/unnamed/part_000), execution count 10. *)
Definition solution_cell_10 : cell :=
  {| execution_count := Some 10;
     source := [
       "# Build a feed-forward network";
       "model = nn.Sequential(nn.Linear(784, 128),";
       "                      nn.ReLU(),";
       "                      nn.Linear(128, 64),";
       "                      nn.ReLU(),";
       "                      nn.Linear(64, 10),";
       "                      nn.LogSoftmax(dim=1))";
       blank;
       "criterion = nn.NLLLoss()";
       "images, labels = next(iter(trainloader))";
       "images = images.view(images.shape[0], -1)";
       blank;
       "logps = model(images)";
       "loss = criterion(logps, labels)"
     ] |}.

(** Code cell 11 of the solution notebook (src/unnamed/part_000), execution count 11. *)
Definition solution_cell_11 : cell :=
  {| execution_count := Some 11;
     source := [
       "print('Before backward pass: \n', model[0].weight.grad)";
       blank;
       "loss.backward()";
       blank;
       "print('After backward pass: \n', model[0].weight.grad)"
     ] |}.

(** Code cell 12 of the solution notebook (src/unnamed/part_000), execution count 12. *)
Definition solution_cell_12 : cell :=
  {| execution_count := Some 12;
     source := [
       "from torch import optim";
       blank;
       "# Optimizers require the parameters to optimize and a learning rate";
       "optimizer = optim.SGD(model.parameters(), lr=0.01)"
     ] |}.

(** Code cell 13 of the solution notebook (src/unnamed/part_000), execution count 13. *)
Definition solution_cell_13 : cell :=
  {| execution_count := Some 13;
     source := [
       "print('Initial weights - ', model[0].weight)";
       blank;
       "images, labels = next(iter(trainloader))";
       "images.resize_(64, 784)";
       blank;
       "# Clear the gradients, do this because gradients are accumulated";
       "optimizer.zero_grad()";
       blank;
       "# Forward pass, then backward pass, then update weights";
       "output = model(images)";
       "loss = criterion(output, labels)";
       "loss.backward()";
       "print('Gradient -', model[0].weight.grad)"
     ] |}.

(** Code cell 14 of the solution notebook (src/unnamed/part_000), execution count 14. *)
Definition solution_cell_14 : cell :=
  {| execution_count := Some 14;
     source := [
       "# Take an update step and few the new weights";
       "optimizer.step()";
       "print('Updated weights - ', model[0].weight)"
     ] |}.

(** Code cell 15 of the solution notebook (src/unnamed/part_000), execution count 15. *)
Definition solution_cell_15 : cell :=
  {| execution_count := Some 15;
     source := [
       "model = nn.Sequential(nn.Linear(784, 128),";
       "                      nn.ReLU(),";
       "                      nn.Linear(128, 64),";
       "                      nn.ReLU(),";
       "                      nn.Linear(64, 10),";
       "                      nn.LogSoftmax(dim=1))";
       blank;
       "criterion = nn.NLLLoss()";
       "optimizer = optim.SGD(model.parameters(), lr=0.003)";
       blank;
       "epochs = 5";
       "for e in range(epochs):";
       "    running_loss = 0";
       "    for images, labels in trainloader:";
       "        # Flatten MNIST images into a 784 long vector";
       "        images = images.view(images.shape[0], -1)";
       "    ";
       "        # TODO: Training pass";
       "        optimizer.zero_grad()";
       "        ";
       "        output = model(images)";
       "        loss = criterion(output, labels)";
       "        loss.backward()";
       "        optimizer.step()";
       "        ";
       "        running_loss += loss.item()";
       "    else:";
       ("        print(f" ++ dq ++ "Training loss: {running_loss/len(trainloader)}" ++ dq ++ ")")%string
     ] |}.


(** Code cell 16 of the solution notebook (src/unnamed/part_000), execution count 16. *)
Definition solution_cell_16 : cell :=
  {| execution_count := Some 16;
     source := [
       "%matplotlib inline";
       "import helper";
       blank;
       "images, labels = next(iter(trainloader))";
       blank;
       "img = images[0].view(1, 784)";
       "# Turn off gradients to speed up this part";
       "with torch.no_grad():";
       "    logps = model(img)";
       blank;
       "# Output of the network are log-probabilities, need to take exponential for probabilities";
       "ps = torch.exp(logps)";
       "helper.view_classify(img.view(1, 28, 28), ps)"
     ] |}.

(** Code cell 17 of the solution notebook (src/unnamed/part_000), execution count null. *)
Definition solution_cell_17 : cell :=
  {| execution_count := None;
     source := [] |}.

Definition solution_code_cells : list cell :=
  [ solution_cell_1;
    solution_cell_2;
    solution_cell_3;
    solution_cell_4;
    solution_cell_5;
    solution_cell_6;
    solution_cell_7;
    solution_cell_8;
    solution_cell_9;
    solution_cell_10;
    solution_cell_11;
    solution_cell_12;
    solution_cell_13;
    solution_cell_14;
    solution_cell_15;
    solution_cell_16;
    solution_cell_17 ].

(** Code cell 1 of the exercises notebook, execution count 1. *)
Definition exercises_cell_1 : cell :=
  {| execution_count := Some 1;
     source := [
       "import torch";
       "from torch import nn";
       "import torch.nn.functional as F";
       "from torchvision import datasets, transforms";
       blank;
       "# Define a transform to normalize the data";
       "transform = transforms.Compose([transforms.ToTensor(),";
       "                                transforms.Normalize((0.5,), (0.5,)),";
       "                              ])";
       "# Download and load the training data";
       "trainset = datasets.MNIST('~/.pytorch/MNIST_data/', download=True, train=True, transform=transform)";
       "trainloader = torch.utils.data.DataLoader(trainset, batch_size=64, shuffle=True)"
     ] |}.

(** Code cell 2 of the exercises notebook, execution count 2. *)
Definition exercises_cell_2 : cell :=
  {| execution_count := Some 2;
     source := [
       "# Build a feed-forward network";
       "model = nn.Sequential(nn.Linear(784, 128),";
       "                      nn.ReLU(),";
       "                      nn.Linear(128, 64),";
       "                      nn.ReLU(),";
       "                      nn.Linear(64, 10))";
       blank;
       "# Define the loss";
       "criterion = nn.CrossEntropyLoss()";
       blank;
       "# Get our data";
       "images, labels = next(iter(trainloader))";
       "# Flatten images";
       "images = images.view(images.shape[0], -1)";
       blank;
       "# Forward pass, get our logits";
       "logits = model(images)";
       "# Calculate the loss with the logits and the labels";
       "loss = criterion(logits, labels)";
       blank;
       "print(loss)"
     ] |}.

(** Code cell 3 of the exercises notebook, execution count 7. *)
Definition exercises_cell_3 : cell :=
  {| execution_count := Some 7;
     source := [
       "# TODO: Build a feed-forward network";
       "model = nn.Sequential(nn.Linear(784, 128),";
       "        nn.ReLU(),";
       "        nn.Linear(128, 64),";
       "        nn.ReLU(),";
       "        nn.Linear(64, 10),";
       "        nn.LogSoftmax(dim=1))";
       blank;
       "# TODO: Define the loss";
       "criterion = nn.NLLLoss()";
       blank;
       "### Run this to check your work";
       "# Get our data";
       "images, labels = next(iter(trainloader))";
       "# Flatten images";
       "images = images.view(images.shape[0], -1)";
       blank;
       "# Forward pass, get our logits";
       "logits = model(images)";
       "# Calculate the loss with the logits and the labels";
       "loss = criterion(logits, labels)";
       blank;
       "print(loss)"
     ] |}.

(** Code cell 4 of the exercises notebook, execution count 8. *)
Definition exercises_cell_4 : cell :=
  {| execution_count := Some 8;
     source := [
       "x = torch.randn(2,2, requires_grad=True)";
       "print(x)"
     ] |}.

(** Code cell 5 of the exercises notebook, execution count 9. *)
Definition exercises_cell_5 : cell :=
  {| execution_count := Some 9;
     source := [
       "y = x**2";
       "print(y)"
     ] |}.

(** Code cell 6 of the exercises notebook, execution count 10. *)
Definition exercises_cell_6 : cell :=
  {| execution_count := Some 10;
     source := [
       "## grad_fn shows the function that generated this variable";
       "print(y.grad_fn)"
     ] |}.

(** Code cell 7 of the exercises notebook, execution count 11. *)
Definition exercises_cell_7 : cell :=
  {| execution_count := Some 11;
     source := [
       "z = y.mean()";
       "print(z)"
     ] |}.

(** Code cell 8 of the exercises notebook, execution count 12. *)
Definition exercises_cell_8 : cell :=
  {| execution_count := Some 12;
     source := [
       "print(x.grad)"
     ] |}.

(** Code cell 9 of the exercises notebook, execution count 13. *)
Definition exercises_cell_9 : cell :=
  {| execution_count := Some 13;
     source := [
       "z.backward()";
       "print(x.grad)";
       "print(x/2)"
     ] |}.

(** Code cell 10 of the exercises notebook, execution count 14. *)
Definition exercises_cell_10 : cell :=
  {| execution_count := Some 14;
     source := [
       "# Build a feed-forward network";
       "model = nn.Sequential(nn.Linear(784, 128),";
       "                      nn.ReLU(),";
       "                      nn.Linear(128, 64),";
       "                      nn.ReLU(),";
       "                      nn.Linear(64, 10),";
       "                      nn.LogSoftmax(dim=1))";
       blank;
       "criterion = nn.NLLLoss()";
       "images, labels = next(iter(trainloader))";
       "images = images.view(images.shape[0], -1)";
       blank;
       "logits = model(images)";
       "loss = criterion(logits, labels)"
     ] |}.

(** Code cell 11 of the exercises notebook, execution count 15. *)
Definition exercises_cell_11 : cell :=
  {| execution_count := Some 15;
     source := [
       "print('Before backward pass: \n', model[0].weight.grad)";
       blank;
       "loss.backward()";
       blank;
       "print('After backward pass: \n', model[0].weight.grad)"
     ] |}.

(** Code cell 12 of the exercises notebook, execution count 16. *)
Definition exercises_cell_12 : cell :=
  {| execution_count := Some 16;
     source := [
       "from torch import optim";
       blank;
       "# Optimizers require the parameters to optimize and a learning rate";
       "optimizer = optim.SGD(model.parameters(), lr=0.01)"
     ] |}.

(** Code cell 13 of the exercises notebook, execution count 17. *)
Definition exercises_cell_13 : cell :=
  {| execution_count := Some 17;
     source := [
       "print('Initial weights - ', model[0].weight)";
       blank;
       "images, labels = next(iter(trainloader))";
       "images.resize_(64, 784)";
       blank;
       "# Clear the gradients, do this because gradients are accumulated";
       "optimizer.zero_grad()";
       blank;
       "# Forward pass, then backward pass, then update weights";
       "output = model(images)";
       "loss = criterion(output, labels)";
       "loss.backward()";
       "print('Gradient -', model[0].weight.grad)"
     ] |}.

(** Code cell 14 of the exercises notebook, execution count 18. *)
Definition exercises_cell_14 : cell :=
  {| execution_count := Some 18;
     source := [
       "# Take an update step and few the new weights";
       "optimizer.step()";
       "print('Updated weights - ', model[0].weight)"
     ] |}.

(** Code cell 15 of the exercises notebook, execution count 21. *)
Definition exercises_cell_15 : cell :=
  {| execution_count := Some 21;
     source := [
       "## Your solution here";
       blank;
       "model = nn.Sequential(nn.Linear(784, 128),";
       "                      nn.ReLU(),";
       "                      nn.Linear(128, 64),";
       "                      nn.ReLU(),";
       "                      nn.Linear(64, 10),";
       "                      nn.LogSoftmax(dim=1))";
       blank;
       "criterion = nn.NLLLoss()";
       "optimizer = optim.SGD(model.parameters(), lr=0.003)";
       blank;
       "epochs = 5";
       "for e in range(epochs):";
       "    running_loss = 0";
       "    for images, labels in trainloader:";
       "        # Flatten MNIST images into a 784 long vector";
       "        images = images.view(images.shape[0], -1)";
       "    ";
       "        # TODO: Training pass";
       "        optimizer.zero_grad()";
       "        output = model(images)";
       "        loss = criterion(output, labels)";
       "        loss.backward()";
       "        optimizer.step()";
       blank;
       "        running_loss += loss.item()";
       "    else:";
       ("        print(f" ++ dq ++ "Training loss: {running_loss/len(trainloader)}" ++ dq ++ ")")%string
     ] |}.


(** Code cell 16 of the exercises notebook, execution count 22. *)
Definition exercises_cell_16 : cell :=
  {| execution_count := Some 22;
     source := [
       "%matplotlib inline";
       "import helper";
       blank;
       "images, labels = next(iter(trainloader))";
       blank;
       "img = images[0].view(1, 784)";
       "# Turn off gradients to speed up this part";
       "with torch.no_grad():";
       "    logps = model(img)";
       blank;
       "# Output of the network are log-probabilities, need to take exponential for probabilities";
       "ps = torch.exp(logps)";
       "helper.view_classify(img.view(1, 28, 28), ps)"
     ] |}.

Definition exercises_code_cells : list cell :=
  [ exercises_cell_1;
    exercises_cell_2;
    exercises_cell_3;
    exercises_cell_4;
    exercises_cell_5;
    exercises_cell_6;
    exercises_cell_7;
    exercises_cell_8;
    exercises_cell_9;
    exercises_cell_10;
    exercises_cell_11;
    exercises_cell_12;
    exercises_cell_13;
    exercises_cell_14;
    exercises_cell_15;
    exercises_cell_16 ].
Definition code_cells (nb : notebook) : list cell :=
  match nb with
  | Solution => solution_code_cells
  | Exercises => exercises_code_cells
  end.


(** The cell that trains the network for five epochs, the cell that shows a
    single training step, and the cell that classifies one image. *)
Definition training_cell (nb : notebook) : cell :=
  match nb with
  | Solution => solution_cell_15
  | Exercises => exercises_cell_15
  end.

Definition single_step_cell (nb : notebook) : cell :=
  match nb with
  | Solution => solution_cell_13
  | Exercises => exercises_cell_13
  end.

Definition prediction_cell (nb : notebook) : cell :=
  match nb with
  | Solution => solution_cell_16
  | Exercises => exercises_cell_16
  end.

(** * Lexical analysis of a source line *)

Definition in_range (lo hi : nat) (c : ascii) : bool :=
  let n := nat_of_ascii c in ((lo <=? n)%nat && (n <=? hi)%nat).

Definition is_letter (c : ascii) : bool := in_range 65 90 c || in_range 97 122 c.
Definition is_digit (c : ascii) : bool := in_range 48 57 c.
Definition is_ident_char (c : ascii) : bool :=
  is_letter c || is_digit c || Ascii.eqb c "_".
Definition is_name_char (c : ascii) : bool := is_ident_char c || Ascii.eqb c ".".

Fixpoint strip_indent (s : string) : string :=
  match s with
  | String c s' => if Ascii.eqb c " " then strip_indent s' else s
  | EmptyString => EmptyString
  end.

Fixpoint take_while (p : ascii -> bool) (s : string) : string :=
  match s with
  | String c s' => if p c then String c (take_while p s') else EmptyString
  | EmptyString => EmptyString
  end.

(** The identifier a line starts with, after its indentation: the keyword of
    a compound or simple statement, or the first name of an expression.  It is
    empty for a blank line, a comment and an IPython magic. *)
Definition first_word (line : string) : string :=
  take_while is_ident_char (strip_indent line).

Definition is_blank (line : string) : bool :=
  String.eqb (strip_indent line) EmptyString.

Definition is_comment (line : string) : bool := prefix "#" (strip_indent line).

(** The lines of a cell that Python executes: neither blank nor a comment.
    The indentation, which carries the block structure, is kept. *)
Definition code_lines (c : cell) : list string :=
  filter (fun l => negb (is_blank l || is_comment l)) (source c).

Fixpoint contains (p s : string) : bool :=
  prefix p s ||
  match s with
  | String _ s' => contains p s'
  | EmptyString => false
  end.

Definition mem (w : string) (ws : list string) : bool :=
  existsb (String.eqb w) ws.

(** The names that a line calls: every maximal run of identifier characters
    and dots that an opening parenthesis follows.  Scanning stops at a
    comment.  String literals are scanned too: none in the notebooks holds a
    parenthesis apart from the formatted string of the training cell, whose
    [len(trainloader)] Python does evaluate. *)
Fixpoint calls_from (acc : string) (s : string) : list string :=
  match s with
  | EmptyString => []
  | String c s' =>
      if Ascii.eqb c "#" then []
      else if is_name_char c then calls_from (acc ++ String c EmptyString)%string s'
      else if Ascii.eqb c "(" then
        (if String.eqb acc EmptyString then [] else [acc]) ++ calls_from EmptyString s'
      else calls_from EmptyString s'
  end.

Definition calls_of_line (line : string) : list string := calls_from EmptyString line.

Definition calls_of_cell (c : cell) : list string := flat_map calls_of_line (source c).

Definition calls_of (nb : notebook) : list string :=
  flat_map calls_of_cell (code_cells nb).

(** The part of a dotted name before its first dot. *)
Definition root (name : string) : string := take_while is_ident_char name.

(** The statement keywords of a cell, in order. *)
Definition statement_keywords : list string :=
  [ "for"; "while"; "if"; "elif"; "else"; "try"; "except"; "finally"; "with";
    "def"; "class"; "raise"; "assert"; "break"; "continue"; "return" ].

Definition keywords_of_cell (c : cell) : list string :=
  filter (fun w => mem w statement_keywords) (map first_word (source c)).

(** * What the cells are made of *)

Definition cells_of_both : list cell := code_cells Solution ++ code_cells Exercises.

(** Keywords that open a block: loops, branches, handlers, definitions. *)
Definition compound_keywords : list string :=
  [ "for"; "while"; "if"; "elif"; "else"; "try"; "except"; "finally"; "with";
    "def"; "class" ].

(** Keywords of exception handling. *)
Definition exception_keywords : list string :=
  [ "try"; "except"; "finally"; "raise"; "assert" ].

(** A cell is straight-line code when no line opens a block and none
    updates an accumulator in place. *)
Definition straight_line (c : cell) : bool :=
  forallb (fun l => negb (mem (first_word l) compound_keywords)
                    && negb (contains "+=" l)) (source c).

Definition handles_exceptions (c : cell) : bool :=
  existsb (fun l => mem (first_word l) exception_keywords) (source c).

Definition import_lines (nb : notebook) : list string :=
  filter (fun l => mem (first_word l) ["import"; "from"])
         (flat_map source (code_cells nb)).

(** The names under which the cells reach the framework, and the local
    plotting module. *)
Definition framework_modules : list string :=
  [ "torch"; "nn"; "F"; "datasets"; "transforms"; "optim" ].

Definition local_modules : list string := [ "helper" ].

Definition python_builtins : list string :=
  [ "next"; "iter"; "print"; "range"; "len" ].

(** A call through an imported framework module, such as [nn.Linear]. *)
Definition is_framework_call (name : string) : bool :=
  contains "." name && mem (root name) framework_modules.

Definition framework_calls (nb : notebook) : list string :=
  filter is_framework_call (calls_of nb).

(** The interface that the specification lists, facility by facility. *)
Inductive facility :=
| TensorConstruction
| AutogradFlag
| SequentialContainer
| LinearLayer
| ActivationLayer
| LogSoftmaxFunction
| NLLLossFunction
| SGDOptimizer
| DatasetLoaderUtility.

(** The listed facility a framework name belongs to, if any.  The transforms
    that prepare the images are counted with the dataset utility. *)
Definition listed_facility (name : string) : option facility :=
  if mem name ["torch.randn"] then Some TensorConstruction
  else if mem name ["torch.no_grad"] then Some AutogradFlag
  else if mem name ["nn.Sequential"] then Some SequentialContainer
  else if mem name ["nn.Linear"] then Some LinearLayer
  else if mem name ["nn.ReLU"] then Some ActivationLayer
  else if mem name ["nn.LogSoftmax"] then Some LogSoftmaxFunction
  else if mem name ["nn.NLLLoss"] then Some NLLLossFunction
  else if mem name ["optim.SGD"] then Some SGDOptimizer
  else if mem name ["datasets.MNIST"; "torch.utils.data.DataLoader";
                    "transforms.Compose"; "transforms.ToTensor";
                    "transforms.Normalize"] then Some DatasetLoaderUtility
  else None.

Definition is_listed (name : string) : bool :=
  match listed_facility name with Some _ => true | None => false end.

(** Calls on objects the framework returned: the model, the criterion, the
    optimizer and tensors. *)
Definition object_calls : list string :=
  [ "model"; "criterion"; "model.parameters"; "optimizer.zero_grad";
    "optimizer.step"; "loss.backward"; "z.backward"; "loss.item"; "y.mean";
    "images.view"; "images.resize_"; "img.view"; ".view" ].

Fixpoint dedup (l : list string) : list string :=
  match l with
  | [] => []
  | x :: l' => if mem x l' then dedup l' else x :: dedup l'
  end.

(** The lines that reshape a tensor, without indentation. *)
Definition reshape_lines (c : cell) : list string :=
  filter (fun l => contains ".view(" l || contains ".resize_(" l)
         (map strip_indent (code_lines c)).

(** * The recorded output of the training cell *)

Definition digit_value (c : ascii) : option Z :=
  if is_digit c then Some (Z.of_nat (nat_of_ascii c) - 48)%Z else None.

(** The value of a run of decimal digits that continues [acc], and the
    number of digits read; [None] when a character is not a digit. *)
Fixpoint digits_value (s : string) (acc : Z) (n : nat) : option (Z * nat) :=
  match s with
  | EmptyString => Some (acc, n)
  | String c s' =>
      match digit_value c with
      | Some d => digits_value s' (10 * acc + d)%Z (S n)
      | None => None
      end
  end.

Fixpoint drop (n : nat) (s : string) : string :=
  match n, s with
  | S n', String _ s' => drop n' s'
  | _, _ => s
  end.

(** The exact rational a decimal numeral such as [0.878406940524512]
    denotes. *)
Definition parse_decimal (s : string) : option Q :=
  let whole := take_while is_digit s in
  match drop (String.length whole) s with
  | String "." fraction =>
      match digits_value whole 0 0 with
      | Some (i, S _) =>
          match digits_value fraction i 0 with
          | Some (v, S k) => Some (Qmake v (Pos.pow 10 (Pos.of_nat (S k))))
          | _ => None
          end
      | _ => None
      end
  | _ => None
  end.

Definition loss_prefix : string := "Training loss: ".

Definition parse_training_loss (line : string) : option Q :=
  if prefix loss_prefix line
  then parse_decimal (drop (String.length loss_prefix) line)
  else None.




(** A reshaping line flattens when it asks for rows of 784 values, by number
    or with [-1]. *)
Definition flattens (line : string) : bool :=
  contains ", -1)" line || contains ", 784)" line.

Definition flattening_lines (c : cell) : list string :=
  filter flattens (reshape_lines c).

Definition shape_respecting_view : string :=
  "images = images.view(images.shape[0], -1)".

(** * Comparing the two notebooks *)

(** Every occurrence of [old] in [s] replaced by [new], left to right; the
    fuel bounds the number of steps and the length of [s] suffices. *)
Fixpoint replace_fuel (fuel : nat) (old new s : string) : string :=
  match fuel with
  | O => s
  | S fuel' =>
      match s with
      | EmptyString => EmptyString
      | String c s' =>
          if prefix old s
          then (new ++ replace_fuel fuel' old new (drop (String.length old) s))%string
          else String c (replace_fuel fuel' old new s')
      end
  end.

Definition replace_all (old new s : string) : string :=
  replace_fuel (String.length s) old new s.

(** The executable lines of a cell without their indentation. *)
Definition statements (c : cell) : list string :=
  map strip_indent (code_lines c).

(** How a cell of the solution notebook compares with the cell at the same
    place in the exercises notebook: the same executable lines, the same up
    to the indentation of continuation lines, or the same up to that and the
    name of one variable, [logps] for [logits]. *)
Inductive likeness := SameLines | SameStatements | SameUpToName | Different.

Definition list_string_eqb (a b : list string) : bool :=
  Nat.eqb (length a) (length b)
  && forallb (fun p => String.eqb (fst p) (snd p)) (combine a b).

Definition compare_cells (a b : cell) : likeness :=
  if list_string_eqb (code_lines a) (code_lines b) then SameLines
  else if list_string_eqb (statements a) (statements b) then SameStatements
  else if list_string_eqb (map (replace_all "logps" "logits") (statements a))
                          (statements b) then SameUpToName
  else Different.

(** * Names bound and used by a cell *)

(** The name a line binds by a plain assignment [name = ...]. *)
Definition assigned_name (line : string) : list string :=
  let l := strip_indent line in
  let w := first_word l in
  if negb (String.eqb w EmptyString) && prefix (w ++ " = ")%string l
  then [w] else [].

Definition assigned_names (c : cell) : list string :=
  flat_map assigned_name (code_lines c).

(** Whether some executable line of a cell holds the text. *)
Definition mentions (text : string) (c : cell) : bool :=
  existsb (contains text) (code_lines c).

(** The import statements of a cell. *)
Definition imports_of (c : cell) : list string :=
  filter (fun l => mem (first_word l) ["import"; "from"]) (code_lines c).

(** The code cells of a notebook that satisfy a test, by position from 1. *)
Definition positions (p : cell -> bool) (cs : list cell) : list nat :=
  map fst (filter (fun ic => p (snd ic)) (combine (seq 1 (length cs)) cs)).

(** The code cells that draw one batch with [next(iter(trainloader))]. *)
Definition drawing_cells (nb : notebook) : list nat :=
  positions (mentions "next(iter(trainloader))") (code_cells nb).

(** * The framework interface

    The notebooks call a deep-learning framework and a few Python built-ins.
    Their behaviour is not part of the repository: it is an interface here,
    and every result below holds for each implementation of it.  A call that
    can raise returns a sum, the exception on the left. *)

Inductive layer :=
| Linear (in_features out_features : nat)
| ReLU
| LogSoftmax (dim : nat).

Inductive criterion_kind := NLLLoss | CrossEntropyLoss.

Class Framework := {
  Params : Type;   (* weights and biases of a model *)
  Grad : Type;     (* the [.grad] tensors of the parameters *)
  Images : Type;
  Labels : Type;
  Output : Type;
  Loss : Type;     (* a loss tensor, with the graph that produced it *)
  Num : Type;      (* Python numbers *)
  Exn : Type;
  Rng : Type;      (* state of the random generator *)
  (* nn.Sequential(...): fresh, randomly initialised parameters *)
  fw_Sequential : list layer -> Rng -> Params * Rng;
  (* iter(trainloader) with shuffle=True: the batches of one pass *)
  fw_iter : Rng -> list (Images * Labels) * Rng;
  (* len(trainloader) *)
  fw_len : nat;
  (* images.view(images.shape[0], -1) *)
  fw_view : Images -> Exn + Images;
  (* images.resize_(rows, columns) *)
  fw_resize_ : nat -> nat -> Images -> Exn + Images;
  (* model(images) *)
  fw_forward : list layer -> Params -> Images -> Exn + Output;
  (* criterion(output, labels) *)
  fw_criterion : criterion_kind -> Output -> Labels -> Exn + Loss;
  (* the gradient that loss.backward() computes for the parameters *)
  fw_backward : Loss -> Exn + Grad;
  fw_zeros_like : Grad -> Grad;
  fw_add : Grad -> Grad -> Grad;
  (* one update of optim.SGD with the given learning rate *)
  fw_SGD_step : Q -> Params -> Grad -> Params;
  (* loss.item() *)
  fw_item : Loss -> Num;
  py_zero : Num;
  py_add : Num -> Num -> Num;
  (* running_loss / n, which raises when n is zero *)
  py_div : Num -> nat -> Exn + Num;
  (* next() on an exhausted iterator *)
  py_StopIteration : Exn
}.

(** The objects that the cells share: the model with its parameters and
    their gradients, the criterion, the optimizer (bound to the parameters of
    the current model, as in every cell that creates one) and the state of
    the random generator.  The names that cells 1 and 12 bind once and no
    cell rebinds ([torch], [nn], [optim], [trainloader]) are not in the
    state: they are the framework interface, and every program below
    supposes them bound. *)
Record world_of {Params Grad Rng : Type} := {
  rng : Rng;
  model_layers : list layer;
  model_params : Params;
  model_grad : option Grad;     (* None until the first backward pass *)
  criterion : criterion_kind;
  optimizer_lr : Q
}.

(** The calls a cell makes, in the order it makes them. *)
Inductive event_of {Grad Images Labels Num : Type} :=
| EvSequential (ls : list layer)
| EvCriterion (k : criterion_kind)
| EvSGD (lr : Q)
| EvIter
| EvNext (b : Images * Labels)
| EvView
| EvResize
| EvZeroGrad
| EvForward
| EvLoss
| EvBackward
| EvStep (g : option Grad)     (* the gradients the step reads *)
| EvItem (v : Num)             (* the number loss.item() returns *)
| EvPrint (v : Num)            (* the number printed as training loss *)
| EvPrintTensor.               (* a weight or gradient tensor is printed *)

#[warnings="-notation-for-abbreviation"]
Notation World := (@world_of Params Grad Rng).
#[warnings="-notation-for-abbreviation"]
Notation event := (@event_of Grad Images Labels Num).

Section Semantics.

Context {F : Framework}.

(** Programs: a state transformer that also yields the calls made and either
    a value or the exception raised.  The state survives an exception, as
    Python's does. *)
Definition M (A : Type) : Type := World -> World * list event * (Exn + A).

Definition ret {A} (a : A) : M A := fun w => (w, [], inr a).

Definition bind {A B} (m : M A) (k : A -> M B) : M B :=
  fun w =>
    match m w with
    | (w1, t1, inl x) => (w1, t1, inl x)
    | (w1, t1, inr a) =>
        match k a w1 with
        | (w2, t2, r) => (w2, t1 ++ t2, r)
        end
    end.

Definition log (e : event) : M unit := fun w => (w, [e], inr tt).
Definition get : M World := fun w => (w, [], inr w).
Definition put (w : World) : M unit := fun _ => (w, [], inr tt).
Definition lift {A} (r : Exn + A) : M A := fun w => (w, [], r).

(** Updates of one field. *)
Definition with_rng (w : World) (r : Rng) : World :=
  {| rng := r; model_layers := model_layers w; model_params := model_params w;
     model_grad := model_grad w; criterion := criterion w;
     optimizer_lr := optimizer_lr w |}.

Definition with_params (w : World) (p : Params) : World :=
  {| rng := rng w; model_layers := model_layers w; model_params := p;
     model_grad := model_grad w; criterion := criterion w;
     optimizer_lr := optimizer_lr w |}.

Definition with_grad (w : World) (g : option Grad) : World :=
  {| rng := rng w; model_layers := model_layers w;
     model_params := model_params w; model_grad := g;
     criterion := criterion w; optimizer_lr := optimizer_lr w |}.

End Semantics.

Declare Scope prog_scope.
Delimit Scope prog_scope with prog.
Notation "x <- m ;; k" := (bind m (fun x => k))
  (at level 61, m at next level, right associativity) : prog_scope.
Notation "m ;; k" := (bind m (fun _ => k))
  (at level 61, right associativity) : prog_scope.
Open Scope prog_scope.

Section Cells.

Context {F : Framework}.

(** ** The framework calls of the cells *)

(** [model = nn.Sequential(...)]: a new model; its parameters have no
    gradient yet. *)
Definition new_model (ls : list layer) : M unit :=
  log (EvSequential ls) ;;
  w <- get ;;
  let (p, r) := fw_Sequential ls (rng w) in
  put {| rng := r; model_layers := ls; model_params := p; model_grad := None;
         criterion := criterion w; optimizer_lr := optimizer_lr w |}.

(** [criterion = nn.NLLLoss()] *)
Definition new_criterion (k : criterion_kind) : M unit :=
  log (EvCriterion k) ;;
  w <- get ;;
  put {| rng := rng w; model_layers := model_layers w;
         model_params := model_params w; model_grad := model_grad w;
         criterion := k; optimizer_lr := optimizer_lr w |}.

(** [optimizer = optim.SGD(model.parameters(), lr=...)] *)
Definition new_SGD (lr : Q) : M unit :=
  log (EvSGD lr) ;;
  w <- get ;;
  put {| rng := rng w; model_layers := model_layers w;
         model_params := model_params w; model_grad := model_grad w;
         criterion := criterion w; optimizer_lr := lr |}.

(** [iter(trainloader)] *)
Definition iter_trainloader : M (list (Images * Labels)) :=
  log EvIter ;;
  w <- get ;;
  let (bs, r) := fw_iter (rng w) in
  put (with_rng w r) ;;
  ret bs.

(** [images.view(images.shape[0], -1)] *)
Definition view (images : Images) : M Images :=
  log EvView ;; lift (fw_view images).

(** [images.resize_(64, 784)] *)
Definition resize_ (rows columns : nat) (images : Images) : M Images :=
  log EvResize ;; lift (fw_resize_ rows columns images).

(** [optimizer.zero_grad()]: an existing gradient becomes zero. *)
Definition zero_grad : M unit :=
  log EvZeroGrad ;;
  w <- get ;;
  put (with_grad w (option_map fw_zeros_like (model_grad w))).

(** [model(images)] *)
Definition forward (images : Images) : M Output :=
  log EvForward ;;
  w <- get ;;
  lift (fw_forward (model_layers w) (model_params w) images).

(** [criterion(output, labels)] *)
Definition compute_loss (output : Output) (labels : Labels) : M Loss :=
  log EvLoss ;;
  w <- get ;;
  lift (fw_criterion (criterion w) output labels).

(** The gradients are accumulated: a backward pass adds to what is there. *)
Definition accumulate (old : option Grad) (g : Grad) : option Grad :=
  match old with
  | None => Some g
  | Some a => Some (fw_add a g)
  end.

(** [loss.backward()] *)
Definition backward (loss : Loss) : M unit :=
  log EvBackward ;;
  g <- lift (fw_backward loss) ;;
  w <- get ;;
  put (with_grad w (accumulate (model_grad w) g)).

(** [optimizer.step()]: parameters without gradient are left alone. *)
Definition optimizer_step : M unit :=
  w <- get ;;
  log (EvStep (model_grad w)) ;;
  match model_grad w with
  | None => ret tt
  | Some g =>
      put (with_params w (fw_SGD_step (optimizer_lr w) (model_params w) g))
  end.

(** [loss.item()] *)
Definition item (loss : Loss) : M Num :=
  log (EvItem (fw_item loss)) ;; ret (fw_item loss).

(** ** Python's loops *)

(** [for images, labels in batches: running_loss = body ...] *)
Fixpoint for_batches (body : Images -> Labels -> Num -> M Num)
    (batches : list (Images * Labels)) (running_loss : Num) : M Num :=
  match batches with
  | [] => ret running_loss
  | (images, labels) :: rest =>
      log (EvNext (images, labels)) ;;
      running_loss <- body images labels running_loss ;;
      for_batches body rest running_loss
  end.

(** [for e in range(n): body] *)
Fixpoint for_range (n : nat) (body : M unit) : M unit :=
  match n with
  | O => ret tt
  | S n' => body ;; for_range n' body
  end.

(** [next(iter(trainloader))] *)
Definition next_batch : M (Images * Labels) :=
  bs <- iter_trainloader ;;
  match bs with
  | [] => lift (inl py_StopIteration)
  | b :: _ => log (EvNext b) ;; ret b
  end.

(** ** The cells that train, as programs *)

(** The network every training cell builds. *)
Definition solution_model : list layer :=
  [ Linear 784 128; ReLU; Linear 128 64; ReLU; Linear 64 10; LogSoftmax 1 ].

(** Solution notebook, code cell 13: one training step up to the backward
    pass.  The model, the criterion and the optimizer are those of the cells
    before it. *)
Definition solution_single_step : M unit :=
  log EvPrintTensor ;;
  b <- next_batch ;;
  let (images, labels) := b in
  images <- resize_ 64 784 images ;;
  (* Clear the gradients, do this because gradients are accumulated *)
  zero_grad ;;
  (* Forward pass, then backward pass, then update weights *)
  output <- forward images ;;
  loss <- compute_loss output labels ;;
  backward loss ;;
  log EvPrintTensor.

(** Solution notebook, code cell 14: the update step. *)
Definition solution_update : M unit :=
  optimizer_step ;;
  log EvPrintTensor.

(** Solution notebook, code cell 15: the body of the inner loop. *)
Definition solution_training_pass
    (images : Images) (labels : Labels) (running_loss : Num) : M Num :=
  (* Flatten MNIST images into a 784 long vector *)
  images <- view images ;;
  (* Training pass *)
  zero_grad ;;
  output <- forward images ;;
  loss <- compute_loss output labels ;;
  backward loss ;;
  optimizer_step ;;
  v <- item loss ;;
  ret (py_add running_loss v).

Definition solution_epochs : nat := 5.

(** Solution notebook, code cell 15: the body of the outer loop.  The inner
    loop holds no [break], so its [else] branch runs whenever the loop ends
    without an exception. *)
Definition solution_epoch : M unit :=
  let running_loss := py_zero in
  batches <- iter_trainloader ;;
  running_loss <- for_batches solution_training_pass batches running_loss ;;
  (* else: *)
  v <- lift (py_div running_loss fw_len) ;;
  log (EvPrint v).

(** Solution notebook, code cell 15. *)
Definition solution_train : M unit :=
  new_model solution_model ;;
  new_criterion NLLLoss ;;
  new_SGD 0.003%Q ;;
  for_range solution_epochs solution_epoch.



(** The network of the exercises notebook. *)
Definition exercises_model : list layer :=
  [ Linear 784 128; ReLU; Linear 128 64; ReLU; Linear 64 10; LogSoftmax 1 ].

(** Exercises notebook, code cell 13: one training step up to the backward
    pass.  The model, the criterion and the optimizer are those of the cells
    before it. *)
Definition exercises_single_step : M unit :=
  log EvPrintTensor ;;
  b <- next_batch ;;
  let (images, labels) := b in
  images <- resize_ 64 784 images ;;
  (* Clear the gradients, do this because gradients are accumulated *)
  zero_grad ;;
  (* Forward pass, then backward pass, then update weights *)
  output <- forward images ;;
  loss <- compute_loss output labels ;;
  backward loss ;;
  log EvPrintTensor.

(** Exercises notebook, code cell 14: the update step. *)
Definition exercises_update : M unit :=
  optimizer_step ;;
  log EvPrintTensor.

(** Exercises notebook, code cell 15: the body of the inner loop. *)
Definition exercises_training_pass
    (images : Images) (labels : Labels) (running_loss : Num) : M Num :=
  (* Flatten MNIST images into a 784 long vector *)
  images <- view images ;;
  (* Training pass *)
  zero_grad ;;
  output <- forward images ;;
  loss <- compute_loss output labels ;;
  backward loss ;;
  optimizer_step ;;
  v <- item loss ;;
  ret (py_add running_loss v).

Definition exercises_epochs : nat := 5.

(** Exercises notebook, code cell 15: the body of the outer loop.  The inner
    loop holds no [break], so its [else] branch runs whenever the loop ends
    without an exception. *)
Definition exercises_epoch : M unit :=
  let running_loss := py_zero in
  batches <- iter_trainloader ;;
  running_loss <- for_batches exercises_training_pass batches running_loss ;;
  (* else: *)
  v <- lift (py_div running_loss fw_len) ;;
  log (EvPrint v).

(** Exercises notebook, code cell 15. *)
Definition exercises_train : M unit :=
  new_model exercises_model ;;
  new_criterion NLLLoss ;;
  new_SGD 0.003%Q ;;
  for_range exercises_epochs exercises_epoch.

Definition single_step (nb : notebook) : M unit :=
  match nb with
  | Solution => solution_single_step
  | Exercises => exercises_single_step
  end.

Definition update (nb : notebook) : M unit :=
  match nb with
  | Solution => solution_update
  | Exercises => exercises_update
  end.

Definition training_pass (nb : notebook) : Images -> Labels -> Num -> M Num :=
  match nb with
  | Solution => solution_training_pass
  | Exercises => exercises_training_pass
  end.

Definition epoch (nb : notebook) : M unit :=
  match nb with
  | Solution => solution_epoch
  | Exercises => exercises_epoch
  end.

Definition train (nb : notebook) : M unit :=
  match nb with
  | Solution => solution_train
  | Exercises => exercises_train
  end.



(** ** The cells before the training loop, as programs *)

(** The network of the first loss cell: no softmax at the output. *)
Definition solution_logits_model : list layer :=
  [ Linear 784 128; ReLU; Linear 128 64; ReLU; Linear 64 10 ].

(** Solution notebook, code cell 2: the cross-entropy loss of one batch. *)
Definition solution_cross_entropy_cell : M Loss :=
  (* Build a feed-forward network *)
  new_model solution_logits_model ;;
  (* Define the loss *)
  new_criterion CrossEntropyLoss ;;
  (* Get our data *)
  b <- next_batch ;;
  let (images, labels) := b in
  (* Flatten images *)
  images <- view images ;;
  (* Forward pass, get our logits *)
  logits <- forward images ;;
  (* Calculate the loss with the logits and the labels *)
  loss <- compute_loss logits labels ;;
  log EvPrintTensor ;;
  ret loss.

(** Solution notebook, code cell 3: the same with a log-softmax output and
    the negative log-likelihood loss. *)
Definition solution_nll_cell : M Loss :=
  new_model solution_model ;;
  new_criterion NLLLoss ;;
  b <- next_batch ;;
  let (images, labels) := b in
  images <- view images ;;
  logps <- forward images ;;
  loss <- compute_loss logps labels ;;
  log EvPrintTensor ;;
  ret loss.

(** Solution notebook, code cell 10: a new model and the loss of one batch,
    kept in [loss] for the next cell. *)
Definition solution_loss_cell : M Loss :=
  new_model solution_model ;;
  new_criterion NLLLoss ;;
  b <- next_batch ;;
  let (images, labels) := b in
  images <- view images ;;
  logps <- forward images ;;
  loss <- compute_loss logps labels ;;
  ret loss.

(** Solution notebook, code cell 11: the gradient of the first weights is
    printed before and after the backward pass of [loss]. *)
Definition solution_backward_cell (loss : Loss) : M unit :=
  log EvPrintTensor ;;
  backward loss ;;
  log EvPrintTensor.

(** Solution notebook, code cell 12: the optimizer of the single step. *)
Definition solution_optimizer_cell : M unit :=
  new_SGD 0.01%Q.



(** The network of the first loss cell of the exercises notebook. *)
Definition exercises_logits_model : list layer :=
  [ Linear 784 128; ReLU; Linear 128 64; ReLU; Linear 64 10 ].

(** Exercises notebook, code cell 2: the cross-entropy loss of one batch. *)
Definition exercises_cross_entropy_cell : M Loss :=
  (* Build a feed-forward network *)
  new_model exercises_logits_model ;;
  (* Define the loss *)
  new_criterion CrossEntropyLoss ;;
  (* Get our data *)
  b <- next_batch ;;
  let (images, labels) := b in
  (* Flatten images *)
  images <- view images ;;
  (* Forward pass, get our logits *)
  logits <- forward images ;;
  (* Calculate the loss with the logits and the labels *)
  loss <- compute_loss logits labels ;;
  log EvPrintTensor ;;
  ret loss.

(** Exercises notebook, code cell 3: the same with a log-softmax output and
    the negative log-likelihood loss. *)
Definition exercises_nll_cell : M Loss :=
  new_model exercises_model ;;
  new_criterion NLLLoss ;;
  b <- next_batch ;;
  let (images, labels) := b in
  images <- view images ;;
  logits <- forward images ;;
  loss <- compute_loss logits labels ;;
  log EvPrintTensor ;;
  ret loss.

(** Exercises notebook, code cell 10: a new model and the loss of one batch,
    kept in [loss] for the next cell. *)
Definition exercises_loss_cell : M Loss :=
  new_model exercises_model ;;
  new_criterion NLLLoss ;;
  b <- next_batch ;;
  let (images, labels) := b in
  images <- view images ;;
  logits <- forward images ;;
  loss <- compute_loss logits labels ;;
  ret loss.

(** Exercises notebook, code cell 11: the gradient of the first weights is
    printed before and after the backward pass of [loss]. *)
Definition exercises_backward_cell (loss : Loss) : M unit :=
  log EvPrintTensor ;;
  backward loss ;;
  log EvPrintTensor.

(** Exercises notebook, code cell 12: the optimizer of the single step. *)
Definition exercises_optimizer_cell : M unit :=
  new_SGD 0.01%Q.

Definition cross_entropy_cell (nb : notebook) : M Loss :=
  match nb with
  | Solution => solution_cross_entropy_cell
  | Exercises => exercises_cross_entropy_cell
  end.

Definition nll_cell (nb : notebook) : M Loss :=
  match nb with
  | Solution => solution_nll_cell
  | Exercises => exercises_nll_cell
  end.

Definition loss_cell (nb : notebook) : M Loss :=
  match nb with
  | Solution => solution_loss_cell
  | Exercises => exercises_loss_cell
  end.

Definition backward_cell (nb : notebook) : Loss -> M unit :=
  match nb with
  | Solution => solution_backward_cell
  | Exercises => exercises_backward_cell
  end.

Definition optimizer_cell (nb : notebook) : M unit :=
  match nb with
  | Solution => solution_optimizer_cell
  | Exercises => exercises_optimizer_cell
  end.

(** Code cells 10 to 14 run one after the other: a loss and its backward
    pass, then the optimizer and the single training step. *)
Definition demonstration (nb : notebook) : M unit :=
  loss <- loss_cell nb ;;
  backward_cell nb loss ;;
  optimizer_cell nb ;;
  single_step nb ;;
  update nb.

(** The configuration that a program leaves alone: the layers, the
    criterion and the learning rate. *)
Definition same_configuration (w w' : World) : Prop :=
  model_layers w' = model_layers w /\
  criterion w' = criterion w /\
  optimizer_lr w' = optimizer_lr w.

(** The gradient of the loss of one batch under the current parameters when
    the batch is flattened with [resize_(64, 784)], as in the single step. *)
Definition resized_batch_gradient (w : World) (images : Images)
    (labels : Labels) : option Grad :=
  match fw_resize_ 64 784 images with
  | inl _ => None
  | inr flat =>
      match fw_forward (model_layers w) (model_params w) flat with
      | inl _ => None
      | inr output =>
          match fw_criterion (criterion w) output labels with
          | inl _ => None
          | inr loss =>
              match fw_backward loss with
              | inl _ => None
              | inr g => Some g
              end
          end
      end
  end.

(** ** Reading a run *)

Definition final {A} (o : World * list event * (Exn + A)) : World := fst (fst o).
Definition events {A} (o : World * list event * (Exn + A)) : list event := snd (fst o).
Definition result {A} (o : World * list event * (Exn + A)) : Exn + A := snd o.

(** The four operations of a training pass. *)
Inductive op := OpForward | OpLoss | OpBackward | OpStep.

Definition pass_order : list op := [ OpForward; OpLoss; OpBackward; OpStep ].

Definition training_op (e : event) : list op :=
  match e with
  | EvForward => [OpForward]
  | EvLoss => [OpLoss]
  | EvBackward => [OpBackward]
  | EvStep _ => [OpStep]
  | _ => []
  end.

(** The training operations of a trace, in the order they were made. *)
Definition training_ops (t : list event) : list op := flat_map training_op t.

(** The batches drawn from the loader. *)
Definition drawn (t : list event) : list (Images * Labels) :=
  flat_map (fun e => match e with EvNext b => [b] | _ => [] end) t.

(** The numbers [loss.item()] returned. *)
Definition items (t : list event) : list Num :=
  flat_map (fun e => match e with EvItem v => [v] | _ => [] end) t.

(** The training losses printed. *)
Definition prints (t : list event) : list Num :=
  flat_map (fun e => match e with EvPrint v => [v] | _ => [] end) t.

(** The gradients the optimizer steps read. *)
Definition stepped (t : list event) : list (option Grad) :=
  flat_map (fun e => match e with EvStep g => [g] | _ => [] end) t.

(** The calls of a trace that clear or compute gradients, by name. *)
Definition gradient_calls (t : list event) : list string :=
  flat_map (fun e => match e with
                     | EvZeroGrad => ["zero_grad"]
                     | EvBackward => ["backward"]
                     | EvStep _ => ["step"]
                     | _ => []
                     end) t.

(** The worlds a training pass goes through: after [zero_grad], after
    [backward] with gradient [g], and after [step]. *)
Definition zeroed (w : World) : World :=
  with_grad w (option_map fw_zeros_like (model_grad w)).

Definition backpropagated (w : World) (g : Grad) : World :=
  with_grad w (accumulate (model_grad w) g).

Definition updated (w : World) : World :=
  match model_grad w with
  | None => w
  | Some g => with_params w (fw_SGD_step (optimizer_lr w) (model_params w) g)
  end.

(** The world after the three constructor calls that open the training
    cell. *)
Definition after_setup (nb : notebook) (w : World) : World :=
  final ((new_model (match nb with
                     | Solution => solution_model
                     | Exercises => exercises_model
                     end) ;;
          new_criterion NLLLoss ;; new_SGD 0.003%Q) w).

Definition setup_events : list event :=
  [ EvSequential [ Linear 784 128; ReLU; Linear 128 64; ReLU; Linear 64 10;
                   LogSoftmax 1 ];
    EvCriterion NLLLoss; EvSGD 0.003%Q ].

(** The gradient of the loss of one batch under the current parameters, as
    the four framework calls compute it.  It does not read the gradient the
    parameters already hold. *)
Definition batch_gradient (w : World) (images : Images) (labels : Labels)
    : option Grad :=
  match fw_view images with
  | inl _ => None
  | inr flat =>
      match fw_forward (model_layers w) (model_params w) flat with
      | inl _ => None
      | inr output =>
          match fw_criterion (criterion w) output labels with
          | inl _ => None
          | inr loss =>
              match fw_backward loss with
              | inl _ => None
              | inr g => Some g
              end
          end
      end
  end.

(** The gradient of each batch of a list, each under the parameters that
    the passes over the batches before it have left. *)
Fixpoint gradients_along (nb : notebook) (w : World)
    (batches : list (Images * Labels)) : list (option Grad) :=
  match batches with
  | [] => []
  | (images, labels) :: rest =>
      batch_gradient w images labels
      :: gradients_along nb (final (training_pass nb images labels py_zero w)) rest
  end.

(** The batches the loader yields in [n] successive passes, from a state of
    the random generator. *)
Fixpoint loader_passes (n : nat) (r : Rng) : list (list (Images * Labels)) :=
  match n with
  | O => []
  | S n' => fst (fw_iter r) :: loader_passes n' (snd (fw_iter r))
  end.

(** ** The cells before the training loop: shape and observations *)

(** The common shape of code cells 2, 3 and 10: a new model and criterion,
    one batch drawn and flattened, the forward pass and the loss; cells 2
    and 3 print the loss. *)
Definition loss_program (ls : list layer) (k : criterion_kind)
    (printed : bool) : M Loss :=
  new_model ls ;;
  new_criterion k ;;
  b <- next_batch ;;
  let (images, labels) := b in
  images <- view images ;;
  output <- forward images ;;
  loss <- compute_loss output labels ;;
  (if printed then log EvPrintTensor else ret tt) ;;
  ret loss.

(** The state in which such a cell leaves the objects: the model freshly
    initialised, without gradient, and the generator advanced by the
    initialisation and by one pass of the loader. *)
Definition fresh_model (ls : list layer) (k : criterion_kind) (w : World)
    : World :=
  {| rng := snd (fw_iter (snd (fw_Sequential ls (rng w))));
     model_layers := ls;
     model_params := fst (fw_Sequential ls (rng w));
     model_grad := None;
     criterion := k;
     optimizer_lr := optimizer_lr w |}.

(** A program that builds a model leaves it untrained: no gradient, the
    parameters of the initialisation, no call that clears, computes or uses
    gradients, and of the training operations at most a forward pass and a
    loss. *)
Definition leaves_untrained (c : M Loss) (w : World) : Prop :=
  model_grad (final (c w)) = None /\
  model_params (final (c w))
    = fst (fw_Sequential (model_layers (final (c w))) (rng w)) /\
  gradient_calls (events (c w)) = [] /\
  exists n, training_ops (events (c w)) = firstn n [OpForward; OpLoss].

(** The parameters after one SGD step per gradient, in order. *)
Definition sgd_steps (lr : Q) (p : Params) (gs : list Grad) : Params :=
  fold_left (fw_SGD_step lr) gs p.

(** The loss of one batch under the current parameters, as the first three
    framework calls of a pass compute it. *)
Definition batch_loss (w : World) (images : Images) (labels : Labels)
    : option Loss :=
  match fw_view images with
  | inl _ => None
  | inr flat =>
      match fw_forward (model_layers w) (model_params w) flat with
      | inl _ => None
      | inr output =>
          match fw_criterion (criterion w) output labels with
          | inl _ => None
          | inr loss => Some loss
          end
      end
  end.

(** The number [loss.item()] of each batch of a list, each loss under the
    parameters that the passes over the batches before it have left. *)
Fixpoint losses_along (nb : notebook) (w : World)
    (batches : list (Images * Labels)) : list (option Num) :=
  match batches with
  | [] => []
  | (images, labels) :: rest =>
      option_map fw_item (batch_loss w images labels)
      :: losses_along nb (final (training_pass nb images labels py_zero w)) rest
  end.

(** The calls of [iter(trainloader)] in a trace. *)
Definition loader_iterations (t : list event) : nat :=
  length (filter (fun e => match e with EvIter => true | _ => false end) t).

(** The trace of an epoch that makes one full pass over [batches]: the
    loader is iterated once, at the start; then every batch is drawn once,
    in order, each through the four operations of a training pass; the one
    training loss is printed last. *)
Definition one_full_pass (te : list event) (batches : list (Images * Labels))
    : Prop :=
  exists t0 v,
    te = EvIter :: t0 ++ [EvPrint v] /\
    loader_iterations t0 = 0%nat /\
    prints t0 = [] /\
    drawn t0 = batches /\
    training_ops t0 = flat_map (fun _ => pass_order) batches.

End Cells.

(** Unfolds the monad and the framework calls of a cell. *)
Ltac run_cell :=
  cbv [bind ret log get put lift view resize_ zero_grad forward compute_loss
       backward optimizer_step item].

(** * Reshaping a tensor

    The two calls that flatten a batch, on contiguous tensors: a shape and
    the elements in row-major order.  The definitions follow the documented
    behaviour of the framework: [view] gives the same elements another shape,
    [resize_] keeps the leading elements and fills what is missing from
    memory that was never written. *)

Section Tensors.

Variable A : Type.

Record tensor := { shape : list nat; data : list A }.

Definition numel (s : list nat) : nat := fold_right Nat.mul 1 s.

Definition well_formed (t : tensor) : Prop := length (data t) = numel (shape t).

(** [t.view(t.shape[0], -1)].  It raises on a tensor without dimensions
    (no [shape[0]]) and on an empty first dimension (the [-1] is then
    ambiguous). *)
Definition tensor_view (t : tensor) : option tensor :=
  match shape t with
  | [] => None
  | O :: _ => None
  | S n :: rest => Some {| shape := [S n; numel rest]; data := data t |}
  end.

(** What memory that was never written holds: some [n] elements. *)
Variable uninitialized : nat -> list A.

(** [t.resize_(rows, columns)], in place.  It never raises. *)
Definition tensor_resize_ (rows columns : nat) (t : tensor) : tensor :=
  {| shape := [rows; columns];
     data := firstn (rows * columns)
               (data t ++ uninitialized (rows * columns - length (data t))) |}.

(** A batch of [n] images of 28 by 28 pixels, one channel. *)
Definition is_batch (n : nat) (t : tensor) : Prop :=
  shape t = [n; 1; 28; 28] /\ well_formed t.

End Tensors.

Arguments shape {A} _.
Arguments data {A} _.
Arguments well_formed {A} _.
Arguments tensor_view {A} _.
Arguments tensor_resize_ {A} _ _ _ _.
Arguments is_batch {A} _ _.

(** ** Indexing and reshaping to given sizes

    The two other tensor calls of the prediction cell, in the same model. *)

Section TensorIndexing.

Variable A : Type.

(** [t[0]]: the first slice along the first dimension.  It raises on a
    tensor without dimensions and on an empty first dimension. *)
Definition tensor_first (t : tensor A) : option (tensor A) :=
  match shape t with
  | [] => None
  | O :: _ => None
  | S _ :: rest =>
      Some {| shape := rest; data := firstn (numel rest) (data t) |}
  end.

(** [t.view(d1, ..., dk)] with every size given: it raises unless the sizes
    hold as many elements as the tensor. *)
Definition tensor_view_as (dims : list nat) (t : tensor A) : option (tensor A) :=
  if Nat.eqb (numel dims) (numel (shape t))
  then Some {| shape := dims; data := data t |}
  else None.

End TensorIndexing.

Arguments tensor_first {A} _.
Arguments tensor_view_as {A} _ _.

(** * A small framework to run the cells on

    Integers throughout.  The model has one weight [p]; a batch is a pair
    [(x, y)]; the model computes [p * x] and the loss is the squared error.
    A batch whose [x] is zero stands for a batch of the wrong shape: the
    forward pass raises.  The loader holds the batches it is given and
    reverses their order at every other pass.  Division rounds down. *)

Definition toy (batches : list (Z * Z)) : Framework :=
  {| Params := Z;
     Grad := Z;
     Images := Z;
     Labels := Z;
     Output := Z * Z;          (* the prediction and the input *)
     Loss := Z * Z;            (* the loss and its gradient *)
     Num := Z;
     Exn := string;
     Rng := nat;
     fw_Sequential := fun _ r => (0%Z, S r);
     fw_iter := fun r => (if Nat.even r then batches else rev batches, S r);
     fw_len := length batches;
     fw_view := fun x => inr x;
     fw_resize_ := fun _ _ x => inr x;
     fw_forward := fun _ p x =>
       if Z.eqb x 0 then inl "shape mismatch" else inr ((p * x)%Z, x);
     fw_criterion := fun _ out y =>
       inr (((fst out - y) * (fst out - y))%Z, (2 * (fst out - y) * snd out)%Z);
     fw_backward := fun l => inr (snd l);
     fw_zeros_like := fun _ => 0%Z;
     fw_add := Z.add;
     fw_SGD_step := fun lr p g => (p - Qfloor (lr * inject_Z g))%Z;
     fw_item := fun l => fst l;
     py_zero := 0%Z;
     py_add := Z.add;
     py_div := fun v n =>
       match n with
       | O => inl "division by zero"
       | S _ => inr (v / Z.of_nat n)%Z
       end;
     py_StopIteration := "StopIteration" |}.

Definition toy_world : @world_of Z Z nat :=
  {| rng := 1%nat; model_layers := []; model_params := 0%Z; model_grad := None;
     criterion := CrossEntropyLoss; optimizer_lr := 1%Q |}.

(** Two well-shaped batches; a loader whose second batch is malformed; a
    state that still holds the gradient of an earlier pass. *)
Definition good_batches : list (Z * Z) := [ (10, 20); (20, 40) ]%Z.

Definition bad_batches : list (Z * Z) := [ (10, 20); (0, 40) ]%Z.

Definition stale_world : @world_of Z Z nat :=
  {| rng := 1%nat; model_layers := []; model_params := 1%Z;
     model_grad := Some 5%Z; criterion := NLLLoss; optimizer_lr := 0.003%Q |}.

(** A batch of two images, every pixel 7, and memory that holds zeros. *)
Definition two_images : tensor nat :=
  {| shape := [2; 1; 28; 28]; data := repeat 7 (2 * 784) |}.

Definition zero_filled (n : nat) : list nat := repeat 0 n.

(** * Results on the text of the cells *)

Lemma forallb_In {A} (p : A -> bool) (l : list A) (x : A) :
  forallb p l = true -> In x l -> p x = true.
Proof. intros H Hx. rewrite forallb_forall in H. exact (H x Hx). Qed.

Lemma existsb_In_false {A} (p : A -> bool) (l : list A) (x : A) :
  existsb p l = false -> In x l -> p x = false.
Proof.
  intros H Hx. destruct (p x) eqn:E; [|reflexivity].
  assert (existsb p l = true) by (apply existsb_exists; eauto). congruence.
Qed.

Lemma mem_In (w : string) (ws : list string) : mem w ws = true -> In w ws.
Proof.
  unfold mem. intros H. apply existsb_exists in H.
  destruct H as (x & Hx & E). apply String.eqb_eq in E. subst. exact Hx.
Qed.

Lemma first_word_examples :
  first_word "    for images, labels in trainloader:" = "for" /\
  first_word "    else:" = "else" /\
  first_word "# Define the loss" = EmptyString /\
  first_word "        optimizer.zero_grad()" = "optimizer".
Proof. repeat split. Qed.

Lemma calls_of_line_example :
  calls_of_line "optimizer = optim.SGD(model.parameters(), lr=0.003)"
  = ["optim.SGD"; "model.parameters"].
Proof. reflexivity. Qed.

Lemma parse_training_loss_example :
  parse_training_loss "Training loss: 0.878406940524512"
  = Some (878406940524512 # 1000000000000000)%Q.
Proof. reflexivity. Qed.

(** The keywords of both notebooks: two loops with an [else], and one
    [with] block. *)
Lemma keywords_of_notebook (nb : notebook) :
  flat_map keywords_of_cell (code_cells nb) = ["for"; "for"; "else"; "with"].
Proof. destruct nb; vm_compute; reflexivity. Qed.


(** C5, as stated, fails: the training cell is not a sequence of single
    calls, it holds loops and an accumulator. *)
Lemma training_cell_not_straight_line :
  ~ (forall nb c, In c (code_cells nb) -> straight_line c = true).
Proof.
  intros H. specialize (H Solution solution_cell_15).
  assert (Hin : In solution_cell_15 (code_cells Solution))
    by (simpl; unfold solution_code_cells; do 14 right; left; reflexivity).
  apply H in Hin. vm_compute in Hin. discriminate Hin.
Qed.

(** C5, amended.  Every code cell is straight-line code (imports,
    assignments and calls, without loop, branch, handler or accumulator)
    except two: the training cell, whose only blocks are two nested [for]
    loops and the [else] of the inner one, and which accumulates
    [running_loss] in place; and the prediction cell, with one [with]
    block.  No cell holds an [if], a [while], a [try] or a definition. *)
Theorem cells_straight_line_but_two (nb : notebook) :
  filter (fun c => negb (straight_line c)) (code_cells nb)
    = [training_cell nb; prediction_cell nb] /\
  keywords_of_cell (training_cell nb) = ["for"; "for"; "else"] /\
  filter (contains "+=") (map strip_indent (source (training_cell nb)))
    = ["running_loss += loss.item()"] /\
  keywords_of_cell (prediction_cell nb) = ["with"] /\
  flat_map keywords_of_cell (code_cells nb) = ["for"; "for"; "else"; "with"].
Proof. destruct nb; repeat split; vm_compute; reflexivity. Qed.

(** C6, as stated, fails: [torch.exp] is called, in the prediction cell, and
    is none of the listed facilities; nor is the cross-entropy loss of the
    first loss cell. *)
Lemma calls_outside_listed_surface :
  ~ (forall nb n, In n (framework_calls nb) -> is_listed n = true).
Proof.
  intros H. specialize (H Solution "torch.exp").
  assert (Hin : In "torch.exp" (framework_calls Solution)).
  { apply filter_In. split; [|reflexivity].
    apply mem_In. vm_compute. reflexivity. }
  apply H in Hin. vm_compute in Hin. discriminate Hin.
Qed.

(** C6, amended.  The framework functions called through an imported module
    are those of the listed interface and two more, the cross-entropy loss
    [nn.CrossEntropyLoss] and [torch.exp].  Every other call is a Python
    built-in, a call of or on an object the framework returned (model,
    criterion, optimizer, tensor), or the local plotting helper
    [helper.view_classify].  The imports are the six recorded below, and no
    cell defines a function or a class. *)
Theorem framework_surface (nb : notebook) :
  dedup (filter (fun n => negb (is_listed n)) (framework_calls nb))
    = ["nn.CrossEntropyLoss"; "torch.exp"] /\
  (forall n, In n (calls_of nb) ->
     (is_framework_call n || mem n python_builtins || mem n object_calls
      || String.eqb n "helper.view_classify") = true) /\
  import_lines nb
    = [ "import torch"; "from torch import nn";
        "import torch.nn.functional as F";
        "from torchvision import datasets, transforms";
        "from torch import optim"; "import helper" ] /\
  (forall c l, In c (code_cells nb) -> In l (source c) ->
     mem (first_word l) ["def"; "class"] = false).
Proof.
  split; [destruct nb; vm_compute; reflexivity|].
  split.
  { intros n Hn. revert n Hn. apply forallb_forall.
    destruct nb; vm_compute; reflexivity. }
  split; [destruct nb; vm_compute; reflexivity|].
  intros c l Hc Hl.
  assert (H : forallb (fun c => forallb (fun l =>
              negb (mem (first_word l) ["def"; "class"])) (source c))
              (code_cells nb) = true)
    by (destruct nb; vm_compute; reflexivity).
  apply (forallb_In _ _ _ H) in Hc. apply (forallb_In _ _ _ Hc) in Hl.
  apply negb_true_iff in Hl. exact Hl.
Qed.

(** No code cell of either notebook holds a [try], [except], [finally],
    [raise] or [assert]. *)
Lemma no_exception_keyword (nb : notebook) (c : cell) :
  In c (code_cells nb) -> handles_exceptions c = false.
Proof.
  apply existsb_In_false. destruct nb; vm_compute; reflexivity.
Qed.

(** The lines that reshape a tensor, in both notebooks. *)
Lemma reshape_lines_of_notebook (nb : notebook) :
  flat_map reshape_lines (code_cells nb)
  = [ shape_respecting_view; shape_respecting_view; shape_respecting_view;
      "images.resize_(64, 784)"; shape_respecting_view;
      "img = images[0].view(1, 784)";
      "helper.view_classify(img.view(1, 28, 28), ps)" ].
Proof. destruct nb; vm_compute; reflexivity. Qed.

(** C10, as stated, fails: the prediction cell flattens an image with a
    call that is not [images.view(images.shape[0], -1)]. *)
Lemma prediction_cell_flattens_otherwise :
  ~ (forall nb c l,
       In c (code_cells nb) -> c <> single_step_cell nb ->
       In l (flattening_lines c) -> l = shape_respecting_view).
Proof.
  intros H.
  specialize (H Solution solution_cell_16 "img = images[0].view(1, 784)").
  assert (H1 : In solution_cell_16 (code_cells Solution))
    by (simpl; unfold solution_code_cells; do 15 right; left; reflexivity).
  assert (H2 : solution_cell_16 <> single_step_cell Solution)
    by (intros E; apply (f_equal execution_count) in E; discriminate E).
  assert (H3 : In "img = images[0].view(1, 784)" (flattening_lines solution_cell_16))
    by (vm_compute; left; reflexivity).
  specialize (H H1 H2 H3). vm_compute in H. discriminate H.
Qed.


(** X15.  Cell by cell the two notebooks hold the same code.  Fourteen of the
    sixteen code cells have the same executable lines; the cells at the
    third and the tenth place differ only in the name of one variable,
    [logps] in one notebook and [logits] in the other, and in the
    indentation of continuation lines.  The solution notebook ends with one
    more cell, which is empty. *)
Theorem notebooks_differ_by_one_name :
  map (fun p => compare_cells (fst p) (snd p))
      (combine (code_cells Solution) (code_cells Exercises))
  = [ SameLines; SameLines; SameUpToName; SameLines; SameLines; SameLines;
      SameLines; SameLines; SameLines; SameUpToName; SameLines; SameLines;
      SameLines; SameLines; SameLines; SameLines ] /\
  length (code_cells Exercises) = 16%nat /\
  map source (skipn 16 (code_cells Solution)) = [[]].
Proof. repeat split; vm_compute; reflexivity. Qed.
(** * Results on the runs of the cells *)

Section Runs.

Context {F : Framework}.

(** ** The monad *)

Lemma bind_raise {A B} (m : M A) (k : A -> M B) w w1 t1 x :
  m w = (w1, t1, inl x) -> bind m k w = (w1, t1, inl x).
Proof. intros H. unfold bind. rewrite H. reflexivity. Qed.

Lemma bind_value {A B} (m : M A) (k : A -> M B) w w1 t1 a w2 t2 r :
  m w = (w1, t1, inr a) -> k a w1 = (w2, t2, r) ->
  bind m k w = (w2, t1 ++ t2, r).
Proof. intros H1 H2. unfold bind. rewrite H1, H2. reflexivity. Qed.

Lemma bind_inv {A B} (m : M A) (k : A -> M B) w w2 t r :
  bind m k w = (w2, t, r) ->
  (exists x, m w = (w2, t, inl x) /\ r = inl x) \/
  (exists w1 t1 a t2,
      m w = (w1, t1, inr a) /\ k a w1 = (w2, t2, r) /\ t = t1 ++ t2).
Proof.
  unfold bind. destruct (m w) as [[w1 t1] [x | a]].
  - intros H. inversion H; subst. left. eauto.
  - destruct (k a w1) as [[w3 t2] r2] eqn:E. intros H. inversion H; subst.
    right. exists w1, t1, a, t2. auto.
Qed.

(** ** Projections of a trace *)

Lemma prints_app t1 t2 : prints (t1 ++ t2) = prints t1 ++ prints t2.
Proof. apply flat_map_app. Qed.

Lemma drawn_app t1 t2 : drawn (t1 ++ t2) = drawn t1 ++ drawn t2.
Proof. apply flat_map_app. Qed.

Lemma items_app t1 t2 : items (t1 ++ t2) = items t1 ++ items t2.
Proof. apply flat_map_app. Qed.



Lemma training_ops_app t1 t2 :
  training_ops (t1 ++ t2) = training_ops t1 ++ training_ops t2.
Proof. apply flat_map_app. Qed.

(** ** One training pass *)

(** The run of the loop body, call by call. *)
Lemma training_pass_run nb images labels rl w :
  training_pass nb images labels rl w =
  match fw_view images with
  | inl x => (w, [EvView], inl x)
  | inr flat =>
    match fw_forward (model_layers w) (model_params w) flat with
    | inl x => (zeroed w, [EvView; EvZeroGrad; EvForward], inl x)
    | inr output =>
      match fw_criterion (criterion w) output labels with
      | inl x => (zeroed w, [EvView; EvZeroGrad; EvForward; EvLoss], inl x)
      | inr loss =>
        match fw_backward loss with
        | inl x =>
            (zeroed w, [EvView; EvZeroGrad; EvForward; EvLoss; EvBackward], inl x)
        | inr g =>
            (updated (backpropagated (zeroed w) g),
             [EvView; EvZeroGrad; EvForward; EvLoss; EvBackward;
              EvStep (model_grad (backpropagated (zeroed w) g));
              EvItem (fw_item loss)],
             inr (py_add rl (fw_item loss)))
        end
      end
    end
  end.
Proof.
  destruct nb; unfold training_pass, solution_training_pass, exercises_training_pass;
    run_cell;
    (destruct (fw_view images) as [x | flat]; [reflexivity|]);
    cbn [model_layers model_params criterion with_grad];
    (destruct (fw_forward (model_layers w) (model_params w) flat) as [x | output];
      [reflexivity|]);
    (destruct (fw_criterion (criterion w) output labels) as [x | loss];
      [reflexivity|]);
    (destruct (fw_backward loss) as [x | g]; [reflexivity|]);
    unfold updated, backpropagated, zeroed;
    destruct (model_grad w); reflexivity.
Qed.

Lemma training_pass_facts nb images labels rl w w' t r :
  training_pass nb images labels rl w = (w', t, r) ->
  prints t = [] /\ drawn t = [] /\ rng w' = rng w /\
  match r with
  | inr v => exists x, items t = [x] /\ v = py_add rl x /\ training_ops t = pass_order
  | inl _ => items t = []
  end.
Proof.
  rewrite training_pass_run.
  destruct (fw_view images) as [x | flat];
    [intros H; inversion H; subst; repeat split; reflexivity|].
  destruct (fw_forward _ _ flat) as [x | output];
    [intros H; inversion H; subst; repeat split; reflexivity|].
  destruct (fw_criterion _ output labels) as [x | loss];
    [intros H; inversion H; subst; repeat split; reflexivity|].
  destruct (fw_backward loss) as [x | g];
    intros H; inversion H; subst.
  - repeat split; reflexivity.
  - split; [reflexivity|]. split; [reflexivity|]. split.
    + unfold updated, backpropagated, zeroed. cbn.
      destruct (model_grad w); reflexivity.
    + exists (fw_item loss). repeat split; reflexivity.
Qed.

(** ** The loops *)

Lemma iter_trainloader_run w :
  iter_trainloader w
  = (with_rng w (snd (fw_iter (rng w))), [EvIter], inr (fst (fw_iter (rng w)))).
Proof.
  unfold iter_trainloader. run_cell. destruct (fw_iter (rng w)). reflexivity.
Qed.

Lemma for_batches_facts nb batches : forall rl w w' t r,
  for_batches (training_pass nb) batches rl w = (w', t, r) ->
  prints t = [] /\ rng w' = rng w /\
  match r with
  | inr v =>
      drawn t = batches /\ length (items t) = length batches /\
      v = fold_left py_add (items t) rl /\
      training_ops t = flat_map (fun _ => pass_order) batches
  | inl _ => True
  end.
Proof.
  induction batches as [| [images labels] rest IH]; intros rl w w' t r H.
  - inversion H; subst. repeat split.
  - cbn [for_batches] in H.
    apply bind_inv in H.
    destruct H as [(x & H & _) | (w1 & t1 & [] & t2 & H1 & H2 & ->)];
      [discriminate H|].
    inversion H1; subst; clear H1.
    apply bind_inv in H2.
    destruct H2 as [(x & H2 & ->) | (w2 & t3 & rl2 & t4 & H2 & H3 & ->)].
    + apply training_pass_facts in H2. destruct H2 as (Hp & _ & Hr & _).
      cbn. auto.
    + apply training_pass_facts in H2.
      destruct H2 as (Hp & Hd & Hr & x & Hi & -> & Ho).
      apply IH in H3. destruct H3 as (Hp' & Hr' & H3).
      split; [|split].
      * rewrite !prints_app, Hp, Hp'. reflexivity.
      * congruence.
      * destruct r as [|v]; [exact I|].
        destruct H3 as (Hd' & Hl' & Hv & Ho').
        rewrite !drawn_app, !items_app, !training_ops_app, Hd, Hd', Hi, Ho, Ho'.
        cbn. rewrite Hl'. rewrite Hv. auto.
Qed.

Lemma epoch_unfold nb :
  epoch nb =
  (batches <- iter_trainloader ;;
   running_loss <- for_batches (training_pass nb) batches py_zero ;;
   v <- lift (py_div running_loss fw_len) ;;
   log (EvPrint v)).
Proof. destruct nb; reflexivity. Qed.

(** One iteration of the outer loop. *)
Lemma epoch_facts nb w w' t r :
  epoch nb w = (w', t, r) ->
  rng w' = snd (fw_iter (rng w)) /\
  match r with
  | inr _ =>
      exists t0 v,
        t = EvIter :: t0 ++ [EvPrint v] /\ prints t0 = [] /\
        drawn t0 = fst (fw_iter (rng w)) /\
        length (items t0) = length (fst (fw_iter (rng w))) /\
        py_div (fold_left py_add (items t0) py_zero) fw_len = inr v /\
        training_ops t0 = flat_map (fun _ => pass_order) (fst (fw_iter (rng w)))
  | inl _ => prints t = []
  end.
Proof.
  rewrite epoch_unfold. intros H.
  apply bind_inv in H. rewrite iter_trainloader_run in H.
  destruct H as [(x & H & _) | (w1 & t1 & bs & t2 & H1 & H2 & ->)];
    [discriminate H|].
  inversion H1; subst; clear H1.
  apply bind_inv in H2.
  destruct H2 as [(x & H2 & ->) | (w2 & t3 & rl & t4 & H2 & H3 & ->)].
  - apply for_batches_facts in H2. destruct H2 as (Hp & Hr & _).
    split; [exact Hr|]. rewrite prints_app, Hp. reflexivity.
  - apply for_batches_facts in H2.
    destruct H2 as (Hp & Hr & Hd & Hl & -> & Ho).
    unfold bind, lift, log in H3.
    destruct (py_div _ fw_len) as [x | v] eqn:Hdiv;
      inversion H3; subst; clear H3.
    + split; [exact Hr|]. rewrite !prints_app, Hp. reflexivity.
    + split; [exact Hr|]. exists t3, v. cbn. repeat split; assumption.
Qed.

Lemma train_unfold nb w :
  train nb w =
  match for_range 5 (epoch nb) (after_setup nb w) with
  | (w2, t2, r) => (w2, setup_events ++ t2, r)
  end.
Proof.
  destruct nb; unfold train, solution_train, exercises_train, after_setup,
    new_model, new_criterion, new_SGD, solution_epochs, exercises_epochs,
    solution_model, exercises_model, final;
    run_cell; destruct (fw_Sequential _ (rng w)); cbn -[for_range];
    match goal with |- context [for_range 5 ?b ?v] =>
      destruct (for_range 5 b v) as [[w2 t2] res] end; reflexivity.
Qed.

Lemma for_range_facts nb n : forall w w' t,
  for_range n (epoch nb) w = (w', t, inr tt) ->
  exists ts,
    t = concat ts /\
    Forall2 (fun te batches =>
               exists t0 v,
                 te = EvIter :: t0 ++ [EvPrint v] /\ prints t0 = [] /\
                 drawn t0 = batches /\
                 training_ops t0 = flat_map (fun _ => pass_order) batches)
            ts (loader_passes n (rng w)).
Proof.
  induction n as [| n IH]; intros w w' t H.
  - inversion H; subst. exists []. split; [reflexivity | constructor].
  - cbn [for_range] in H. apply bind_inv in H.
    destruct H as [(x & _ & H) | (w1 & t1 & [] & t2 & H1 & H2 & ->)];
      [discriminate H|].
    apply epoch_facts in H1.
    destruct H1 as (Hr & t0 & v & -> & Hp & Hd & _ & _ & Ho).
    apply IH in H2. destruct H2 as (ts & -> & Hall).
    exists ((EvIter :: t0 ++ [EvPrint v]) :: ts).
    split; [reflexivity|]. cbn [loader_passes]. constructor.
    + exists t0, v. auto.
    + rewrite <- Hr. exact Hall.
Qed.

(** A pass that raises ends the inner loop at once. *)
Lemma for_batches_raise body done : forall b rest rl w w2 t2 rl2 w3 t3 x,
  for_batches body done rl w = (w2, t2, inr rl2) ->
  body (fst b) (snd b) rl2 w2 = (w3, t3, inl x) ->
  for_batches body (done ++ b :: rest) rl w
  = (w3, t2 ++ EvNext b :: t3, inl x).
Proof.
  induction done as [| [images labels] done IH];
    intros b rest rl w w2 t2 rl2 w3 t3 x H1 H2.
  - inversion H1; subst. destruct b as [images labels]. cbn in *.
    unfold bind, log. rewrite H2. reflexivity.
  - cbn [for_batches app] in *. apply bind_inv in H1.
    destruct H1 as [(y & _ & H) | (w1 & t1 & [] & t4 & H1 & H3 & ->)];
      [discriminate H|].
    inversion H1; subst; clear H1.
    apply bind_inv in H3.
    destruct H3 as [(y & _ & H) | (w4 & t5 & rl4 & t6 & H3 & H4 & ->)];
      [discriminate H|].
    unfold bind at 1, log. unfold bind at 1. rewrite H3.
    rewrite (IH b rest rl4 w4 w2 t6 rl2 w3 t3 x H4 H2).
    cbn. rewrite <- !app_assoc. reflexivity.
Qed.

(** An iteration that raises ends the outer loop at once. *)
Lemma for_range_raise (body : M unit) e : forall k w w1 t1 w3 t3 x,
  for_range e body w = (w1, t1, inr tt) ->
  body w1 = (w3, t3, inl x) ->
  for_range (e + S k) body w = (w3, t1 ++ t3, inl x).
Proof.
  induction e as [| e IH]; intros k w w1 t1 w3 t3 x H1 H2.
  - inversion H1; subst. cbn. unfold bind. rewrite H2. reflexivity.
  - cbn [for_range Nat.add] in *. apply bind_inv in H1.
    destruct H1 as [(y & _ & H) | (w4 & t4 & [] & t5 & H1 & H3 & ->)];
      [discriminate H|].
    unfold bind. rewrite H1. fold (@bind F unit unit).
    rewrite (IH k w4 w1 t5 w3 t3 x H3 H2). rewrite app_assoc. reflexivity.
Qed.

(** ** The claims on the runs *)

(** A run of the training cell that completes: its trace is that of five
    epochs, each of which draws exactly the batches the loader yields for
    that pass, each through a complete training pass, and prints last. *)
Lemma completed_run_is_five_epochs (nb : notebook) (w w' : World) (t : list event) :
  train nb w = (w', t, inr tt) ->
  exists ts,
    t = setup_events ++ concat ts /\
    Forall2 (fun te batches =>
               exists t0 v,
                 te = EvIter :: t0 ++ [EvPrint v] /\ prints t0 = [] /\
                 drawn t0 = batches /\
                 training_ops t0 = flat_map (fun _ => pass_order) batches)
            ts (loader_passes 5 (rng (after_setup nb w))).
Proof.
  rewrite train_unfold.
  destruct (for_range 5 (epoch nb) (after_setup nb w)) as [[w2 t2] r] eqn:E.
  intros H. inversion H; subst; clear H.
  apply for_range_facts in E. destruct E as (ts & -> & Hall).
  exists ts. auto.
Qed.

(** C4.  The training cells of the two notebooks hold the same code and are
    the same program: the network Linear 784->128, ReLU, Linear 128->64,
    ReLU, Linear 64->10, LogSoftmax over dimension 1, the negative
    log-likelihood loss, SGD with learning rate 0.003, five epochs of the
    same training pass.  From the same state (data, random generator) they
    make the same calls and end in the same state with the same result. *)
Theorem notebooks_train_alike :
  code_lines (training_cell Solution) = code_lines (training_cell Exercises) /\
  solution_model
    = [ Linear 784 128; ReLU; Linear 128 64; ReLU; Linear 64 10; LogSoftmax 1 ] /\
  exercises_model = solution_model /\
  (forall nb w,
     model_layers (after_setup nb w) = solution_model /\
     criterion (after_setup nb w) = NLLLoss /\
     optimizer_lr (after_setup nb w) = 0.003%Q /\
     train nb w =
       match for_range 5 (epoch nb) (after_setup nb w) with
       | (w2, t2, r) => (w2, setup_events ++ t2, r)
       end) /\
  (forall images labels rl w,
     training_pass Solution images labels rl w
     = training_pass Exercises images labels rl w) /\
  (forall w, train Solution w = train Exercises w).
Proof.
  split; [vm_compute; reflexivity|].
  split; [reflexivity|]. split; [reflexivity|].
  split; [|split; reflexivity].
  intros nb w. split; [|split; [|split]]; try apply train_unfold;
    destruct nb; unfold after_setup, final, new_model, new_criterion, new_SGD;
    run_cell; destruct (fw_Sequential _ (rng w)); reflexivity.
Qed.

(** C7.  No cell of either notebook holds an exception-handling construct,
    and an exception raised by a framework call reaches the caller of the
    cell: when a training pass raises [x] after some epochs and some batches
    have completed, the training cell ends with [x], in the state and with
    the trace of the moment of the raise; nothing runs after it. *)
Theorem exceptions_propagate (nb : notebook) (w : World) (e : nat)
    (w1 w2 w3 : World) (t1 t2 t3 : list event)
    (done rest : list (Images * Labels)) (b : Images * Labels)
    (rl : Num) (x : Exn) :
  (e < 5)%nat ->
  for_range e (epoch nb) (after_setup nb w) = (w1, t1, inr tt) ->
  fst (fw_iter (rng w1)) = done ++ b :: rest ->
  for_batches (training_pass nb) done py_zero
    (with_rng w1 (snd (fw_iter (rng w1)))) = (w2, t2, inr rl) ->
  training_pass nb (fst b) (snd b) rl w2 = (w3, t3, inl x) ->
  train nb w
    = (w3, setup_events ++ t1 ++ EvIter :: t2 ++ EvNext b :: t3, inl x) /\
  prints (EvIter :: t2 ++ EvNext b :: t3) = [] /\
  (forall nb' c, In c (code_cells nb') -> handles_exceptions c = false).
Proof.
  intros He H1 Hb H2 H3.
  assert (Hepoch : epoch nb w1 = (w3, EvIter :: t2 ++ EvNext b :: t3, inl x)).
  { rewrite epoch_unfold. unfold bind at 1. rewrite iter_trainloader_run.
    rewrite Hb. unfold bind at 1.
    rewrite (for_batches_raise _ done b rest _ _ _ _ _ _ _ _ H2 H3).
    reflexivity. }
  split; [|split].
  - rewrite train_unfold.
    replace 5%nat with (e + S (4 - e))%nat by lia.
    rewrite (for_range_raise _ e _ _ _ _ _ _ _ H1 Hepoch). reflexivity.
  - apply epoch_facts in Hepoch. apply Hepoch.
  - intros nb' c. apply no_exception_keyword.
Qed.


(** The state a pass leaves does not depend on the running loss. *)
Lemma training_pass_final nb images labels rl rl' w :
  final (training_pass nb images labels rl w)
  = final (training_pass nb images labels rl' w).
Proof.
  rewrite !training_pass_run.
  destruct (fw_view images) as [x | flat]; [reflexivity|].
  destruct (fw_forward _ _ flat) as [x | output]; [reflexivity|].
  destruct (fw_criterion _ output labels) as [x | loss]; [reflexivity|].
  destruct (fw_backward loss) as [x | g]; reflexivity.
Qed.


End Runs.
(** * Results on reshaping *)

Section Reshaping.

Variable A : Type.
Variable uninitialized : nat -> list A.
Hypothesis uninitialized_length : forall k, length (uninitialized k) = k.

Lemma batch_length (n : nat) (t : tensor A) :
  is_batch n t -> length (data t) = (n * 784)%nat.
Proof.
  intros [Hs Hw]. unfold well_formed in Hw. rewrite Hw, Hs.
  change (numel [n; 1; 28; 28]) with (n * 784)%nat. reflexivity.
Qed.

(** [view] keeps every element of a batch of any size. *)
Lemma tensor_view_batch (n : nat) (t : tensor A) :
  is_batch n t -> (0 < n)%nat ->
  exists t',
    tensor_view t = Some t' /\ shape t' = [n; 784%nat] /\ data t' = data t /\
    well_formed t'.
Proof.
  intros Hb Hn. pose proof (batch_length n t Hb) as Hl.
  destruct Hb as [Hs Hw]. unfold tensor_view. rewrite Hs.
  destruct n as [| n]; [inversion Hn|].
  eexists. split; [reflexivity|]. split; [reflexivity|].
  split; [reflexivity|].
  unfold well_formed. cbn [data shape]. rewrite Hl.
  change (numel [S n; numel [1; 28; 28]]) with (S n * (784 * 1))%nat.
  rewrite Nat.mul_1_r. reflexivity.
Qed.

(** [resize_(64, c)] on a tensor of [n] rows of [c] values. *)
Lemma tensor_resize_rows (c n : nat) (t : tensor A) :
  (0 < c)%nat -> length (data t) = (n * c)%nat ->
  shape (tensor_resize_ uninitialized 64 c t) = [64; c]%nat /\
  length (data (tensor_resize_ uninitialized 64 c t)) = (64 * c)%nat /\
  ((n = 64)%nat -> data (tensor_resize_ uninitialized 64 c t) = data t) /\
  ((64 < n)%nat ->
     data (tensor_resize_ uninitialized 64 c t) = firstn (64 * c) (data t) /\
     (length (data (tensor_resize_ uninitialized 64 c t)) < length (data t))%nat) /\
  ((n < 64)%nat ->
     data (tensor_resize_ uninitialized 64 c t)
     = data t ++ uninitialized ((64 - n) * c)).
Proof.
  intros Hc Hl. unfold tensor_resize_. cbn [shape data].
  split; [reflexivity|].
  assert (Hlen : length (firstn (64 * c)
                   (data t ++ uninitialized (64 * c - length (data t))))
                 = (64 * c)%nat).
  { rewrite length_firstn, length_app, uninitialized_length. lia. }
  split; [exact Hlen|].
  split; [|split].
  - intros ->. rewrite firstn_app.
    replace (64 * c - length (data t))%nat with 0%nat by lia.
    rewrite firstn_all2 by lia. cbn. apply app_nil_r.
  - intros Hn. assert (64 * c < n * c)%nat by nia.
    split; [|rewrite Hlen; lia].
    rewrite firstn_app.
    replace (64 * c - length (data t))%nat with 0%nat by lia.
    cbn. apply app_nil_r.
  - intros Hn. assert (n * c < 64 * c)%nat by nia.
    rewrite firstn_all2.
    + f_equal. f_equal. rewrite Hl. nia.
    + rewrite length_app, uninitialized_length. lia.
Qed.

(** [resize_(64, 784)] on a batch of [n] images. *)
Lemma tensor_resize_batch (n : nat) (t : tensor A) :
  is_batch n t ->
  shape (tensor_resize_ uninitialized 64 784 t) = [64; 784]%nat /\
  length (data (tensor_resize_ uninitialized 64 784 t)) = (64 * 784)%nat /\
  ((n = 64)%nat -> data (tensor_resize_ uninitialized 64 784 t) = data t) /\
  ((64 < n)%nat ->
     data (tensor_resize_ uninitialized 64 784 t) = firstn (64 * 784) (data t) /\
     (length (data (tensor_resize_ uninitialized 64 784 t)) < length (data t))%nat) /\
  ((n < 64)%nat ->
     data (tensor_resize_ uninitialized 64 784 t)
     = data t ++ uninitialized ((64 - n) * 784)).
Proof.
  intros Hb. apply tensor_resize_rows.
  - apply Nat.lt_0_succ.
  - apply batch_length. exact Hb.
Qed.

End Reshaping.

(** C10, amended.  The cell that shows a single step flattens its batch in
    place with [images.resize_(64, 784)].  On a batch of [n] images of 28 by
    28 pixels that call never raises and yields 64 rows of 784 values: the
    same elements when [n] is 64, only the first 64 * 784 of them when [n]
    is larger, and the elements followed by (64 - n) * 784 values of
    uninitialised memory when [n] is smaller.  Every other flattening of a
    whole batch, in both notebooks, is
    [images.view(images.shape[0], -1)], which on a batch of any size [n > 0]
    yields [n] rows of 784 values with all elements kept; the prediction
    cell flattens the single image [images[0]] with [view(1, 784)]. *)
Theorem batch_flattening (nb : notebook) (A : Type)
    (uninitialized : nat -> list A) (n : nat) (t : tensor A) :
  (forall k, length (uninitialized k) = k) ->
  is_batch n t -> (0 < n)%nat ->
  flattening_lines (single_step_cell nb) = ["images.resize_(64, 784)"] /\
  flat_map flattening_lines (code_cells nb)
    = [ shape_respecting_view; shape_respecting_view; shape_respecting_view;
        "images.resize_(64, 784)"; shape_respecting_view;
        "img = images[0].view(1, 784)" ] /\
  (exists t',
     tensor_view t = Some t' /\ shape t' = [n; 784%nat] /\ data t' = data t /\
     well_formed t') /\
  shape (tensor_resize_ uninitialized 64 784 t) = [64; 784]%nat /\
  length (data (tensor_resize_ uninitialized 64 784 t)) = (64 * 784)%nat /\
  ((n = 64)%nat -> data (tensor_resize_ uninitialized 64 784 t) = data t) /\
  ((64 < n)%nat ->
     data (tensor_resize_ uninitialized 64 784 t) = firstn (64 * 784) (data t) /\
     (length (data (tensor_resize_ uninitialized 64 784 t)) < length (data t))%nat) /\
  ((n < 64)%nat ->
     data (tensor_resize_ uninitialized 64 784 t)
     = data t ++ uninitialized ((64 - n) * 784)).
Proof.
  intros Hu Hb Hn.
  split; [destruct nb; vm_compute; reflexivity|].
  split; [destruct nb; vm_compute; reflexivity|].
  split; [apply tensor_view_batch; assumption|].
  apply tensor_resize_batch; assumption.
Qed.

(** * The claims at concrete inputs *)

Lemma toy_zero_add (batches : list (Z * Z)) (a g : Z) :
  @fw_add (toy batches) (@fw_zeros_like (toy batches) a) g = g.
Proof. reflexivity. Qed.

Lemma toy_training_losses :
  prints (events (@train (toy good_batches) Solution toy_world))
  = [200; 0; 0; 0; 0]%Z.
Proof. vm_compute. reflexivity. Qed.

Lemma exceptions_propagate_witness :
  exists w3 t,
    @train (toy bad_batches) Exercises toy_world = (w3, t, inl "shape mismatch").
Proof.
  eexists. eexists.
  refine (proj1 (exceptions_propagate (F := toy bad_batches) Exercises
                   toy_world 0 _ _ _ _ _ _
                   [(10, 20)%Z] [] (0, 40)%Z _ _ _ _ _ _ _)).
  - lia.
  - reflexivity.
  - vm_compute; reflexivity.
  - vm_compute; reflexivity.
  - vm_compute; reflexivity.
Defined.


Lemma batch_flattening_witness :
  is_batch 2 two_images /\
  data (tensor_resize_ zero_filled 64 784 two_images)
  = data two_images ++ zero_filled ((64 - 2) * 784).
Proof.
  assert (Hb : is_batch 2 two_images) by (split; reflexivity).
  split; [exact Hb|].
  destruct (batch_flattening Solution nat zero_filled 2 two_images
              (fun k => repeat_length 0%nat k) Hb (Nat.lt_0_succ 1))
    as (_ & _ & _ & _ & _ & _ & _ & H).
  apply H. repeat constructor.
Defined.
(** * Further results on the runs *)

Section MoreRuns.

Context {F : Framework}.

(** ** The cells, call by call *)

Lemma update_run nb w :
  update nb w = (updated w, [EvStep (model_grad w); EvPrintTensor], inr tt).
Proof.
  destruct nb; unfold update, solution_update, exercises_update, updated;
    run_cell; destruct (model_grad w); reflexivity.
Qed.

Lemma single_step_run nb w :
  single_step nb w =
  match fst (fw_iter (rng w)) with
  | [] =>
      (with_rng w (snd (fw_iter (rng w))), [EvPrintTensor; EvIter],
       inl py_StopIteration)
  | (images, labels) :: _ =>
    match fw_resize_ 64 784 images with
    | inl x =>
        (with_rng w (snd (fw_iter (rng w))),
         [EvPrintTensor; EvIter; EvNext (images, labels); EvResize], inl x)
    | inr flat =>
      match fw_forward (model_layers w) (model_params w) flat with
      | inl x =>
          (zeroed (with_rng w (snd (fw_iter (rng w)))),
           [EvPrintTensor; EvIter; EvNext (images, labels); EvResize;
            EvZeroGrad; EvForward], inl x)
      | inr output =>
        match fw_criterion (criterion w) output labels with
        | inl x =>
            (zeroed (with_rng w (snd (fw_iter (rng w)))),
             [EvPrintTensor; EvIter; EvNext (images, labels); EvResize;
              EvZeroGrad; EvForward; EvLoss], inl x)
        | inr loss =>
          match fw_backward loss with
          | inl x =>
              (zeroed (with_rng w (snd (fw_iter (rng w)))),
               [EvPrintTensor; EvIter; EvNext (images, labels); EvResize;
                EvZeroGrad; EvForward; EvLoss; EvBackward], inl x)
          | inr g =>
              (backpropagated (zeroed (with_rng w (snd (fw_iter (rng w))))) g,
               [EvPrintTensor; EvIter; EvNext (images, labels); EvResize;
                EvZeroGrad; EvForward; EvLoss; EvBackward; EvPrintTensor],
               inr tt)
          end
        end
      end
    end
  end.
Proof.
  destruct nb; unfold single_step, solution_single_step, exercises_single_step,
      next_batch, iter_trainloader; run_cell;
    (destruct (fw_iter (rng w)) as [[| [images labels] rest] r];
      [reflexivity|]);
    cbn [fst snd model_layers model_params criterion with_rng with_grad];
    (destruct (fw_resize_ 64 784 images) as [x | flat]; [reflexivity|]);
    (destruct (fw_forward _ _ flat) as [x | output]; [reflexivity|]);
    (destruct (fw_criterion _ output labels) as [x | loss]; [reflexivity|]);
    (destruct (fw_backward loss) as [x | g]; reflexivity).
Qed.

Lemma loss_program_run ls k printed w :
  loss_program ls k printed w =
  match fst (fw_iter (snd (fw_Sequential ls (rng w)))) with
  | [] =>
      (fresh_model ls k w, [EvSequential ls; EvCriterion k; EvIter],
       inl py_StopIteration)
  | (images, labels) :: _ =>
    match fw_view images with
    | inl x =>
        (fresh_model ls k w,
         [EvSequential ls; EvCriterion k; EvIter; EvNext (images, labels);
          EvView], inl x)
    | inr flat =>
      match fw_forward ls (fst (fw_Sequential ls (rng w))) flat with
      | inl x =>
          (fresh_model ls k w,
           [EvSequential ls; EvCriterion k; EvIter; EvNext (images, labels);
            EvView; EvForward], inl x)
      | inr output =>
        match fw_criterion k output labels with
        | inl x =>
            (fresh_model ls k w,
             [EvSequential ls; EvCriterion k; EvIter; EvNext (images, labels);
              EvView; EvForward; EvLoss], inl x)
        | inr loss =>
            (fresh_model ls k w,
             [EvSequential ls; EvCriterion k; EvIter; EvNext (images, labels);
              EvView; EvForward; EvLoss]
             ++ (if printed then [EvPrintTensor] else []),
             inr loss)
        end
      end
    end
  end.
Proof.
  unfold loss_program, new_model, new_criterion, next_batch, iter_trainloader,
    fresh_model; run_cell.
  destruct (fw_Sequential ls (rng w)) as [p r0].
  cbn [fst snd rng model_layers model_params criterion optimizer_lr model_grad
       with_rng].
  destruct (fw_iter r0) as [[| [images labels] rest] r1]; [reflexivity|].
  cbn [fst snd rng model_layers model_params criterion optimizer_lr model_grad
       with_rng].
  destruct (fw_view images) as [x | flat]; [reflexivity|].
  destruct (fw_forward ls p flat) as [x | output]; [reflexivity|].
  destruct (fw_criterion k output labels) as [x | loss]; [reflexivity|].
  destruct printed; reflexivity.
Qed.

Lemma cross_entropy_cell_shape nb :
  cross_entropy_cell nb = loss_program solution_logits_model CrossEntropyLoss true.
Proof. destruct nb; reflexivity. Qed.

Lemma nll_cell_shape nb :
  nll_cell nb = loss_program solution_model NLLLoss true.
Proof. destruct nb; reflexivity. Qed.

Lemma loss_cell_shape nb :
  loss_cell nb = loss_program solution_model NLLLoss false.
Proof.
  destruct nb; unfold loss_cell, solution_loss_cell, exercises_loss_cell,
    loss_program; reflexivity.
Qed.

(** ** What the loops leave alone *)

Lemma same_configuration_refl w : same_configuration w w.
Proof. repeat split. Qed.

Lemma same_configuration_trans w1 w2 w3 :
  same_configuration w1 w2 -> same_configuration w2 w3 ->
  same_configuration w1 w3.
Proof.
  intros (A1 & A2 & A3) (B1 & B2 & B3). repeat split; congruence.
Qed.

Lemma pass_keeps_configuration nb images labels rl w w' t r :
  training_pass nb images labels rl w = (w', t, r) -> same_configuration w w'.
Proof.
  rewrite training_pass_run.
  destruct (fw_view images) as [x | flat];
    [intros H; inversion H; subst; repeat split|].
  destruct (fw_forward _ _ flat) as [x | output];
    [intros H; inversion H; subst; repeat split|].
  destruct (fw_criterion _ output labels) as [x | loss];
    [intros H; inversion H; subst; repeat split|].
  destruct (fw_backward loss) as [x | g];
    intros H; inversion H; subst; [repeat split|].
  unfold updated, backpropagated, zeroed. cbn [model_grad with_grad].
  destruct (accumulate (option_map fw_zeros_like (model_grad w)) g);
    repeat split.
Qed.

Lemma for_batches_keeps_configuration nb batches : forall rl w w' t r,
  for_batches (training_pass nb) batches rl w = (w', t, r) ->
  same_configuration w w'.
Proof.
  induction batches as [| [images labels] rest IH]; intros rl w w' t r H.
  - inversion H; subst. apply same_configuration_refl.
  - cbn [for_batches] in H. apply bind_inv in H.
    destruct H as [(x & H & _) | (w1 & t1 & [] & t2 & H1 & H2 & ->)];
      [discriminate H|].
    inversion H1; subst; clear H1.
    apply bind_inv in H2.
    destruct H2 as [(x & H2 & ->) | (w2 & t3 & rl2 & t4 & H2 & H3 & ->)].
    + eapply pass_keeps_configuration; eassumption.
    + eapply same_configuration_trans.
      * eapply pass_keeps_configuration; eassumption.
      * eapply IH; eassumption.
Qed.

Lemma epoch_keeps_configuration nb w w' t r :
  epoch nb w = (w', t, r) -> same_configuration w w'.
Proof.
  rewrite epoch_unfold. intros H.
  apply bind_inv in H. rewrite iter_trainloader_run in H.
  destruct H as [(x & H & _) | (w1 & t1 & bs & t2 & H1 & H2 & ->)];
    [discriminate H|].
  inversion H1; subst; clear H1.
  assert (Hrng : forall w0 r0, same_configuration w0 (with_rng w0 r0))
    by (intros; repeat split).
  apply bind_inv in H2.
  destruct H2 as [(x & H2 & ->) | (w2 & t3 & rl & t4 & H2 & H3 & ->)].
  - eapply same_configuration_trans; [apply Hrng|].
    eapply for_batches_keeps_configuration; eassumption.
  - eapply same_configuration_trans; [apply Hrng|].
    apply for_batches_keeps_configuration in H2.
    unfold bind, lift, log in H3.
    destruct (py_div rl fw_len); inversion H3; subst; exact H2.
Qed.

Lemma for_range_keeps_configuration nb n : forall w w' t r,
  for_range n (epoch nb) w = (w', t, r) -> same_configuration w w'.
Proof.
  induction n as [| n IH]; intros w w' t r H.
  - inversion H; subst. apply same_configuration_refl.
  - cbn [for_range] in H. apply bind_inv in H.
    destruct H as [(x & H & ->) | (w1 & t1 & [] & t2 & H1 & H2 & ->)].
    + eapply epoch_keeps_configuration; eassumption.
    + eapply same_configuration_trans.
      * eapply epoch_keeps_configuration; eassumption.
      * eapply IH; eassumption.
Qed.

Lemma after_setup_rng_only nb w1 w2 :
  rng w1 = rng w2 -> after_setup nb w1 = after_setup nb w2.
Proof.
  intros H. destruct nb; unfold after_setup, final, new_model, new_criterion,
    new_SGD; run_cell; rewrite H; destruct (fw_Sequential _ (rng w2));
    reflexivity.
Qed.

Lemma after_setup_configuration nb w :
  model_layers (after_setup nb w) = solution_model /\
  criterion (after_setup nb w) = NLLLoss /\
  optimizer_lr (after_setup nb w) = 0.003%Q /\
  model_grad (after_setup nb w) = None.
Proof.
  destruct nb; unfold after_setup, final, new_model, new_criterion, new_SGD;
    run_cell; destruct (fw_Sequential _ (rng w)); repeat split.
Qed.

Lemma for_range_prints nb n : forall w,
  match result (for_range n (epoch nb) w) with
  | inr _ => length (prints (events (for_range n (epoch nb) w))) = n
  | inl _ => (length (prints (events (for_range n (epoch nb) w))) < n)%nat
  end.
Proof.
  induction n as [| n IH]; intros w.
  - reflexivity.
  - cbn [for_range]. unfold bind.
    destruct (epoch nb w) as [[w1 t1] [x | []]] eqn:E.
    + apply epoch_facts in E. destruct E as (_ & E).
      cbn [result events fst snd]. rewrite E. cbn. lia.
    + apply epoch_facts in E. destruct E as (_ & t0 & v & -> & Hp & _).
      specialize (IH w1).
      destruct (for_range n (epoch nb) w1) as [[w2 t2] r2].
      cbn [result events fst snd] in *.
      change (EvIter :: t0 ++ [EvPrint v]) with ([EvIter] ++ t0 ++ [EvPrint v]).
      rewrite !prints_app, Hp, !length_app. cbn [prints flat_map app length].
      destruct r2; lia.
Qed.

(** ** Edge and error behaviour of the training cell *)

(** X1.  With a loader that yields no batch the training cell makes no training
    pass: it raises what the division of the running loss by the length of
    the loader raises, at the first epoch, with the new model untouched and
    nothing printed. *)
Theorem training_on_empty_loader (nb : notebook) (w : World) (x : Exn) :
  fst (fw_iter (rng (after_setup nb w))) = [] ->
  py_div py_zero fw_len = inl x ->
  train nb w
  = (with_rng (after_setup nb w) (snd (fw_iter (rng (after_setup nb w)))),
     setup_events ++ [EvIter], inl x).
Proof.
  intros Hempty Hdiv. rewrite train_unfold.
  assert (Hepoch : epoch nb (after_setup nb w)
            = (with_rng (after_setup nb w)
                 (snd (fw_iter (rng (after_setup nb w)))), [EvIter], inl x)).
  { rewrite epoch_unfold. unfold bind at 1. rewrite iter_trainloader_run.
    rewrite Hempty. cbn [for_batches]. unfold bind, ret, lift.
    rewrite Hdiv. reflexivity. }
  change 5%nat with (0 + 5)%nat.
  rewrite (for_range_raise (epoch nb) 0 4 (after_setup nb w) (after_setup nb w)
             [] _ _ x eq_refl Hepoch).
  reflexivity.
Qed.

(** X2.  A training pass that raises leaves the parameters as they were: it makes
    no optimizer step and returns no loss; at most the gradients have been
    set to zero. *)
Theorem failed_pass_keeps_parameters (nb : notebook) (images : Images)
    (labels : Labels) (rl : Num) (w w' : World) (t : list event) (x : Exn) :
  training_pass nb images labels rl w = (w', t, inl x) ->
  model_params w' = model_params w /\
  stepped t = [] /\ items t = [] /\
  same_configuration w w' /\ rng w' = rng w /\
  (model_grad w' = model_grad w \/
   model_grad w' = option_map fw_zeros_like (model_grad w)).
Proof.
  rewrite training_pass_run.
  destruct (fw_view images) as [y | flat];
    [intros H; inversion H; subst; repeat split; left; reflexivity|].
  destruct (fw_forward _ _ flat) as [y | output];
    [intros H; inversion H; subst; repeat split; right; reflexivity|].
  destruct (fw_criterion _ output labels) as [y | loss];
    [intros H; inversion H; subst; repeat split; right; reflexivity|].
  destruct (fw_backward loss) as [y | g];
    [intros H; inversion H; subst; repeat split; right; reflexivity|].
  discriminate.
Qed.

Lemma pass_sgd_step (nb : notebook) (images : Images)
    (labels : Labels) (rl v : Num) (w w' : World) (t : list event) :
  (forall a g, fw_add (fw_zeros_like a) g = g) ->
  training_pass nb images labels rl w = (w', t, inr v) ->
  exists g,
    batch_gradient w images labels = Some g /\
    model_params w' = fw_SGD_step (optimizer_lr w) (model_params w) g /\
    model_grad w' = Some g /\
    same_configuration w w' /\ rng w' = rng w.
Proof.
  intros Hzero H.
  pose proof (pass_keeps_configuration _ _ _ _ _ _ _ _ H) as Hc.
  pose proof (training_pass_facts _ _ _ _ _ _ _ _ H) as (_ & _ & Hr & _).
  revert H. unfold batch_gradient. rewrite training_pass_run.
  destruct (fw_view images) as [y | flat]; [discriminate|].
  destruct (fw_forward _ _ flat) as [y | output]; [discriminate|].
  destruct (fw_criterion _ output labels) as [y | loss]; [discriminate|].
  destruct (fw_backward loss) as [y | g]; [discriminate|].
  intros H. inversion H; subst; clear H.
  assert (Hacc : accumulate (option_map fw_zeros_like (model_grad w)) g = Some g)
    by (destruct (model_grad w); cbn; [rewrite Hzero|]; reflexivity).
  exists g. split; [reflexivity|].
  unfold updated, backpropagated, zeroed in *. cbn [model_grad with_grad] in *.
  rewrite Hacc in *. cbn [model_params model_grad with_params with_grad
                          optimizer_lr] in *.
  repeat split; assumption || reflexivity.
Qed.

(** X3.  A training pass that completes changes the parameters by exactly one
    SGD step, with the learning rate of the optimizer, on the gradient of the
    loss of its batch; it leaves that gradient in place and changes neither
    the layers, the criterion, the learning rate nor the random generator. *)
Theorem completed_pass_is_one_sgd_step (nb : notebook) (images : Images)
    (labels : Labels) (rl v : Num) (w w' : World) (t : list event) :
  (forall a g, fw_add (fw_zeros_like a) g = g) ->
  training_pass nb images labels rl w = (w', t, inr v) ->
  exists g,
    batch_gradient w images labels = Some g /\
    model_params w' = fw_SGD_step (optimizer_lr w) (model_params w) g /\
    model_grad w' = Some g /\
    same_configuration w w' /\ rng w' = rng w.
Proof. apply pass_sgd_step. Qed.

(** X4.  The inner loop is stochastic gradient descent.  When it completes, the
    parameters are those it started from after one SGD step per batch, in
    the order of the loader, each step on the gradient of the loss of its
    batch under the parameters of that moment, all with the learning rate
    of the optimizer. *)
Theorem inner_loop_is_sgd (nb : notebook) (batches : list (Images * Labels))
    (rl v : Num) (w w' : World) (t : list event) :
  (forall a g, fw_add (fw_zeros_like a) g = g) ->
  for_batches (training_pass nb) batches rl w = (w', t, inr v) ->
  exists gs,
    length gs = length batches /\
    gradients_along nb w batches = map Some gs /\
    model_params w' = sgd_steps (optimizer_lr w) (model_params w) gs.
Proof.
  intros Hzero. revert rl v w w' t.
  induction batches as [| [images labels] rest IH]; intros rl v w w' t H.
  - inversion H; subst. exists []. repeat split.
  - cbn [for_batches] in H. apply bind_inv in H.
    destruct H as [(x & H & _) | (w1 & t1 & [] & t2 & H1 & H2 & ->)];
      [discriminate H|].
    inversion H1; subst; clear H1.
    apply bind_inv in H2.
    destruct H2 as [(x & _ & H) | (w2 & t3 & rl2 & t4 & H2 & H3 & ->)];
      [discriminate H|].
    pose proof (f_equal final H2) as Hw. cbn [final fst] in Hw.
    rewrite (training_pass_final nb images labels rl py_zero) in Hw.
    apply (pass_sgd_step _ _ _ _ _ _ _ _ Hzero) in H2.
    destruct H2 as (g & Hg & Hp & _ & (_ & _ & Hlr) & _).
    apply IH in H3. destruct H3 as (gs & Hl & Hgs & Hps).
    exists (g :: gs). cbn [gradients_along length map sgd_steps fold_left].
    rewrite Hg, Hw, Hgs, Hps, Hlr, Hp, Hl. repeat split.
Qed.

(** X5.  The training cell rebuilds what it trains.  Its first three
    assignments bind a new model, criterion and optimizer, so the
    parameters, the gradients, the layers, the criterion and the learning
    rate that earlier cells left play no part in its run: two states with
    the same random generator give the same run, and however it ends it
    leaves its own network, the negative log-likelihood loss and the
    learning rate 0.003.  The cell is not closed, though: it holds no import
    and uses [nn], [optim] and [trainloader] without binding them.
    [trainloader] and [nn] are bound by code cell 1 and [optim] by code
    cell 12, which have to run before it. *)
Theorem training_cell_rebuilds_its_model (nb : notebook) (w1 w2 : World) :
  rng w1 = rng w2 ->
  train nb w1 = train nb w2 /\
  model_layers (final (train nb w1)) = solution_model /\
  criterion (final (train nb w1)) = NLLLoss /\
  optimizer_lr (final (train nb w1)) = 0.003%Q /\
  firstn 3 (assigned_names (training_cell nb))
    = ["model"; "criterion"; "optimizer"] /\
  imports_of (training_cell nb) = [] /\
  (forall name, In name ["nn."; "optim."; "trainloader"] ->
     mentions name (training_cell nb) = true /\
     ~ In (root name) (assigned_names (training_cell nb))) /\
  positions (fun c => mem "trainloader" (assigned_names c)) (code_cells nb)
    = [1%nat] /\
  positions (mentions "from torch import nn") (code_cells nb) = [1%nat] /\
  positions (mentions "from torch import optim") (code_cells nb) = [12%nat].
Proof.
  intros Hr. split; [|split; [|split; [|split]]].
  - rewrite !train_unfold, (after_setup_rng_only nb w1 w2 Hr). reflexivity.
  - rewrite train_unfold.
    destruct (for_range 5 (epoch nb) (after_setup nb w1)) as [[w' t] r] eqn:E.
    apply for_range_keeps_configuration in E. destruct E as (E1 & E2 & E3).
    destruct (after_setup_configuration nb w1) as (A1 & A2 & A3 & _).
    cbn [final fst]. congruence.
  - rewrite train_unfold.
    destruct (for_range 5 (epoch nb) (after_setup nb w1)) as [[w' t] r] eqn:E.
    apply for_range_keeps_configuration in E. destruct E as (E1 & E2 & E3).
    destruct (after_setup_configuration nb w1) as (A1 & A2 & A3 & _).
    cbn [final fst]. congruence.
  - rewrite train_unfold.
    destruct (for_range 5 (epoch nb) (after_setup nb w1)) as [[w' t] r] eqn:E.
    apply for_range_keeps_configuration in E. destruct E as (E1 & E2 & E3).
    destruct (after_setup_configuration nb w1) as (A1 & A2 & A3 & _).
    cbn [final fst]. congruence.
  - split; [destruct nb; vm_compute; reflexivity|].
    split; [destruct nb; vm_compute; reflexivity|].
    split; [|destruct nb; vm_compute; repeat split; reflexivity].
    intros name [<- | [<- | [<- | []]]];
      (split; [destruct nb; vm_compute; reflexivity|]);
      destruct nb; vm_compute; intuition discriminate.
Qed.

(** X6.  The training cell prints five training losses exactly when it completes;
    a run that an exception ends has printed fewer. *)
Theorem five_losses_iff_completed (nb : notebook) (w : World) :
  match result (train nb w) with
  | inr _ => length (prints (events (train nb w))) = 5%nat
  | inl _ => (length (prints (events (train nb w))) < 5)%nat
  end.
Proof.
  rewrite train_unfold. pose proof (for_range_prints nb 5 (after_setup nb w)) as H.
  destruct (for_range 5 (epoch nb) (after_setup nb w)) as [[w' t] r].
  cbn [result events fst snd] in *.
  rewrite prints_app. exact H.
Qed.

(** ** The cells before the training loop *)

(** X7.  Five code cells of each notebook draw one batch with
    [next(iter(trainloader))]: cells 2, 3, 10, 13 and 16.  The first four,
    the cells that compute a loss and the single training step, raise
    [StopIteration] when the loader yields no batch, before any tensor is
    reshaped and before any training operation; the cells that build a
    model have built it by then.  (Cell 16, the prediction cell, is not
    among the programs studied here.) *)
Theorem drawing_from_empty_loader (nb : notebook) (w : World) :
  fst (fw_iter (rng w)) = [] ->
  fst (fw_iter (snd (fw_Sequential solution_logits_model (rng w)))) = [] ->
  fst (fw_iter (snd (fw_Sequential solution_model (rng w)))) = [] ->
  single_step nb w
    = (with_rng w (snd (fw_iter (rng w))), [EvPrintTensor; EvIter],
       inl py_StopIteration) /\
  cross_entropy_cell nb w
    = (fresh_model solution_logits_model CrossEntropyLoss w,
       [EvSequential solution_logits_model; EvCriterion CrossEntropyLoss; EvIter],
       inl py_StopIteration) /\
  nll_cell nb w
    = (fresh_model solution_model NLLLoss w,
       [EvSequential solution_model; EvCriterion NLLLoss; EvIter],
       inl py_StopIteration) /\
  loss_cell nb w
    = (fresh_model solution_model NLLLoss w,
       [EvSequential solution_model; EvCriterion NLLLoss; EvIter],
       inl py_StopIteration) /\
  drawing_cells nb = [2; 3; 10; 13; 16]%nat.
Proof.
  intros H1 H2 H3.
  rewrite single_step_run, cross_entropy_cell_shape, nll_cell_shape,
    loss_cell_shape, !loss_program_run, H1, H2, H3.
  repeat split. destruct nb; vm_compute; reflexivity.
Qed.

(** X8.  The three cells that only compute a loss (code cells 2, 3 and 10) leave
    the model they build untrained, however they end: it has no gradient, its
    parameters are those of the initialisation, and the cell makes neither a
    backward pass nor an optimizer step. *)
Theorem loss_cells_never_train (nb : notebook) (w : World) :
  leaves_untrained (cross_entropy_cell nb) w /\
  leaves_untrained (nll_cell nb) w /\
  leaves_untrained (loss_cell nb) w.
Proof.
  assert (H : forall ls k printed, leaves_untrained (loss_program ls k printed) w).
  { intros ls k printed. unfold leaves_untrained. rewrite loss_program_run.
    destruct (fst (fw_iter _)) as [| [images labels] rest];
      [repeat split; exists 0%nat; reflexivity|].
    destruct (fw_view images) as [x | flat];
      [repeat split; exists 0%nat; reflexivity|].
    destruct (fw_forward _ _ flat) as [x | output];
      [repeat split; exists 1%nat; reflexivity|].
    destruct (fw_criterion _ output labels) as [x | loss];
      [repeat split; exists 2%nat; reflexivity|].
    destruct printed; repeat split; exists 2%nat; reflexivity. }
  rewrite cross_entropy_cell_shape, nll_cell_shape, loss_cell_shape.
  repeat split; apply H.
Qed.

(** X9.  Code cells 10 and 11: before the backward pass the new model has no
    gradient (the cell prints [None]); after it the gradient is exactly the
    gradient of the loss that cell 10 computed on its batch, and the
    parameters have not moved. *)
Theorem backward_cell_sets_gradient (nb : notebook) (w w1 w2 : World)
    (t1 t2 : list event) (loss : Loss) :
  loss_cell nb w = (w1, t1, inr loss) ->
  backward_cell nb loss w1 = (w2, t2, inr tt) ->
  model_grad w1 = None /\
  exists images labels rest g,
    fst (fw_iter (snd (fw_Sequential solution_model (rng w))))
      = (images, labels) :: rest /\
    batch_gradient w1 images labels = Some g /\
    fw_backward loss = inr g /\
    model_grad w2 = Some g /\
    model_params w2 = model_params w1 /\
    stepped (t1 ++ t2) = [].
Proof.
  rewrite loss_cell_shape, loss_program_run. unfold batch_gradient.
  destruct (fst (fw_iter _)) as [| [images labels] rest]; [discriminate|].
  destruct (fw_view images) as [x | flat] eqn:Ev; [discriminate|].
  destruct (fw_forward _ _ flat) as [x | output] eqn:Ef; [discriminate|].
  destruct (fw_criterion _ output labels) as [x | loss'] eqn:El; [discriminate|].
  intros H1. inversion H1; subst; clear H1.
  destruct nb; unfold backward_cell, solution_backward_cell,
      exercises_backward_cell; run_cell;
    (destruct (fw_backward loss) as [x | g] eqn:Eb; [discriminate|]);
    intros H2; inversion H2; subst; clear H2;
    (split; [reflexivity|]);
    exists images, labels, rest, g;
    cbn [fresh_model model_layers model_params criterion model_grad with_grad
         accumulate];
    rewrite Ev, Ef, El, Eb; repeat split.
Qed.

(** X10.  Code cells 13 and 14 divide the work: cell 13 computes gradients and
    never changes the parameters, however it ends; cell 14 changes the
    parameters only, by one SGD step on the gradient in place, and nothing
    at all when there is none. *)
Theorem single_step_then_update (nb : notebook) (w : World) :
  model_params (final (single_step nb w)) = model_params w /\
  stepped (events (single_step nb w)) = [] /\
  same_configuration w (final (single_step nb w)) /\
  result (update nb w) = inr tt /\
  model_grad (final (update nb w)) = model_grad w /\
  rng (final (update nb w)) = rng w /\
  same_configuration w (final (update nb w)) /\
  match model_grad w with
  | None => final (update nb w) = w
  | Some g =>
      model_params (final (update nb w))
      = fw_SGD_step (optimizer_lr w) (model_params w) g
  end.
Proof.
  assert (Hs : model_params (final (single_step nb w)) = model_params w /\
               stepped (events (single_step nb w)) = [] /\
               same_configuration w (final (single_step nb w))).
  { rewrite single_step_run.
    destruct (fst (fw_iter (rng w))) as [| [images labels] rest];
      [repeat split|].
    destruct (fw_resize_ 64 784 images) as [x | flat]; [repeat split|].
    destruct (fw_forward _ _ flat) as [x | output]; [repeat split|].
    destruct (fw_criterion _ output labels) as [x | loss]; [repeat split|].
    destruct (fw_backward loss) as [x | g]; repeat split. }
  destruct Hs as (A & B & C).
  split; [exact A|]. split; [exact B|]. split; [exact C|].
  rewrite update_run. cbn [final result fst snd]. unfold updated.
  destruct (model_grad w) as [g |] eqn:E;
    cbn [model_grad model_params rng with_params]; rewrite ?E; repeat split.
Qed.

(** X11.  The single step of code cells 13 and 14 is one iteration of the training
    loop with another flattening: on a batch that [resize_(64, 784)] and
    [view(shape[0], -1)] flatten alike, the two cells make the training
    operations of a training pass on that batch and leave the same
    parameters and gradients, and they raise what the pass raises. *)
Theorem single_step_is_one_training_pass (nb : notebook) (w : World)
    (images : Images) (labels : Labels) (rest : list (Images * Labels))
    (rl : Num) :
  fst (fw_iter (rng w)) = (images, labels) :: rest ->
  fw_resize_ 64 784 images = fw_view images ->
  model_params (final ((single_step nb ;; update nb) w))
    = model_params (final (training_pass nb images labels rl w)) /\
  model_grad (final ((single_step nb ;; update nb) w))
    = model_grad (final (training_pass nb images labels rl w)) /\
  training_ops (events ((single_step nb ;; update nb) w))
    = training_ops (events (training_pass nb images labels rl w)) /\
  match result (training_pass nb images labels rl w) with
  | inr _ => result ((single_step nb ;; update nb) w) = inr tt
  | inl x => result ((single_step nb ;; update nb) w) = inl x
  end.
Proof.
  intros Hb Hflat. unfold bind.
  rewrite single_step_run, training_pass_run, Hb, Hflat.
  destruct (fw_view images) as [x | flat]; [repeat split|].
  destruct (fw_forward _ _ flat) as [x | output]; [repeat split|].
  destruct (fw_criterion _ output labels) as [x | loss]; [repeat split|].
  destruct (fw_backward loss) as [x | g]; [repeat split|].
  rewrite update_run. unfold updated, backpropagated, zeroed.
  cbn [final events result fst snd model_grad model_params optimizer_lr
       with_grad with_rng].
  destruct (accumulate (option_map fw_zeros_like (model_grad w)) g);
    repeat split.
Qed.

(** X12.  Code cells 10 to 14 in sequence.  The backward pass of cell 11 leaves a
    gradient in place; cell 13 clears it before its own backward pass, so
    the optimizer step of cell 14 reads the gradient of the batch of cell 13
    alone, and moves the parameters of the initialisation by one SGD step
    with the learning rate 0.01 of cell 12.  The framework law used is that
    adding a gradient to zeros gives that gradient. *)
Theorem demonstration_step_reads_fresh_gradient (nb : notebook) (w w' : World)
    (t : list event) :
  (forall a g, fw_add (fw_zeros_like a) g = g) ->
  demonstration nb w = (w', t, inr tt) ->
  exists g1 w1 images labels rest g2,
    model_grad (final ((loss <- loss_cell nb ;; backward_cell nb loss) w))
      = Some g1 /\
    final ((loss <- loss_cell nb ;; backward_cell nb loss ;;
            optimizer_cell nb) w) = w1 /\
    fst (fw_iter (rng w1)) = (images, labels) :: rest /\
    resized_batch_gradient w1 images labels = Some g2 /\
    gradient_calls t = ["backward"; "zero_grad"; "backward"; "step"] /\
    stepped t = [Some g2] /\
    model_grad w' = Some g2 /\
    optimizer_lr w' = 0.01%Q /\
    model_params w'
      = fw_SGD_step 0.01%Q (fst (fw_Sequential solution_model (rng w))) g2.
Proof.
  intros Hzero H. unfold demonstration in H.
  apply bind_inv in H.
  destruct H as [(x & _ & H) | (wa & ta & loss0 & tp & Ha & H & ->)];
    [discriminate H|].
  apply bind_inv in H.
  destruct H as [(x & _ & H) | (wb & tb & [] & tq & Hb & H & ->)];
    [discriminate H|].
  apply bind_inv in H.
  destruct H as [(x & _ & H) | (wc & tc & [] & tr & Hc & H & ->)];
    [discriminate H|].
  apply bind_inv in H.
  destruct H as [(x & _ & H) | (wd & td & [] & te & Hd & He & ->)];
    [discriminate H|].
  assert (P1 : (loss <- loss_cell nb ;; backward_cell nb loss) w
               = (wb, ta ++ tb, inr tt))
    by (unfold bind; rewrite Ha, Hb; reflexivity).
  assert (P2 : (loss <- loss_cell nb ;; backward_cell nb loss ;;
                optimizer_cell nb) w = (wc, ta ++ tb ++ tc, inr tt))
    by (unfold bind; rewrite Ha, Hb, Hc; reflexivity).
  rewrite P1, P2. cbn [final fst].
  (* cell 10 *)
  rewrite loss_cell_shape, loss_program_run in Ha.
  destruct (fst (fw_iter (snd (fw_Sequential solution_model (rng w)))))
    as [| [images0 labels0] rest0]; [discriminate|].
  destruct (fw_view images0) as [x | flat0]; [discriminate|].
  destruct (fw_forward _ _ flat0) as [x | output0]; [discriminate|].
  destruct (fw_criterion _ output0 labels0) as [x | loss1]; [discriminate|].
  inversion Ha; subst; clear Ha.
  (* cell 11 *)
  assert (Hb' : exists g1,
            wb = with_grad (fresh_model solution_model NLLLoss w) (Some g1) /\
            tb = [EvPrintTensor; EvBackward; EvPrintTensor]).
  { destruct nb; unfold backward_cell, solution_backward_cell,
      exercises_backward_cell in Hb; revert Hb; run_cell;
      (destruct (fw_backward loss0) as [x | g1]; [discriminate|]);
      intros Hb; inversion Hb; subst; exists g1; split; reflexivity. }
  destruct Hb' as (g1 & -> & ->).
  (* cell 12 *)
  assert (Hc' : wc = {| rng := rng (fresh_model solution_model NLLLoss w);
                        model_layers := solution_model;
                        model_params := fst (fw_Sequential solution_model (rng w));
                        model_grad := Some g1;
                        criterion := NLLLoss;
                        optimizer_lr := 0.01%Q |} /\ tc = [EvSGD 0.01%Q])
    by (destruct nb; inversion Hc; subst; split; reflexivity).
  destruct Hc' as (-> & ->).
  (* cells 13 and 14 *)
  rewrite single_step_run in Hd. rewrite update_run in He.
  unfold resized_batch_gradient.
  cbn [rng model_layers model_params model_grad criterion optimizer_lr] in *.
  destruct (fst (fw_iter (rng (fresh_model solution_model NLLLoss w))))
    as [| [images labels] rest] eqn:Ei; [discriminate|].
  destruct (fw_resize_ 64 784 images) as [x | flat] eqn:Er; [discriminate|].
  destruct (fw_forward _ _ flat) as [x | output] eqn:Ef; [discriminate|].
  destruct (fw_criterion _ output labels) as [x | loss] eqn:El; [discriminate|].
  destruct (fw_backward loss) as [x | g2] eqn:Eb; [discriminate|].
  inversion Hd; subst; clear Hd. inversion He; subst; clear He.
  exists g1. eexists. exists images, labels, rest, g2.
  split; [reflexivity|]. split; [reflexivity|].
  cbn [rng model_layers model_params model_grad criterion optimizer_lr].
  rewrite Ei, Er, Ef, El, Eb.
  unfold updated, backpropagated, zeroed.
  cbn [model_grad model_params optimizer_lr with_grad with_rng with_params
       option_map accumulate].
  rewrite Hzero.
  cbn [model_grad model_params optimizer_lr with_grad with_rng with_params].
  repeat split.
Qed.

End MoreRuns.
(** * The training loop, iteration by iteration *)

Section Epochs.

Context {F : Framework}.

Lemma loader_iterations_app t1 t2 :
  loader_iterations (t1 ++ t2) = (loader_iterations t1 + loader_iterations t2)%nat.
Proof. unfold loader_iterations. rewrite filter_app, length_app. reflexivity. Qed.

(** ** The inner loop *)

(** A pass whose four framework calls succeed completes. *)
Lemma pass_progress nb images labels rl w :
  batch_gradient w images labels <> None ->
  exists w' t v, training_pass nb images labels rl w = (w', t, inr v).
Proof.
  unfold batch_gradient. rewrite training_pass_run.
  destruct (fw_view images) as [x | flat]; [intros H; contradiction H; reflexivity|].
  destruct (fw_forward _ _ flat) as [x | output];
    [intros H; contradiction H; reflexivity|].
  destruct (fw_criterion _ output labels) as [x | loss];
    [intros H; contradiction H; reflexivity|].
  destruct (fw_backward loss) as [x | g];
    [intros H; contradiction H; reflexivity|].
  intros _. eauto.
Qed.

(** What a pass leaves in the trace: no iteration of the loader, and on
    completion the number of the loss of its batch. *)
Lemma pass_item nb images labels rl w w' t r :
  training_pass nb images labels rl w = (w', t, r) ->
  loader_iterations t = 0%nat /\
  match r with
  | inr _ => map Some (items t) = [option_map fw_item (batch_loss w images labels)]
  | inl _ => True
  end.
Proof.
  unfold batch_loss. rewrite training_pass_run.
  destruct (fw_view images) as [x | flat];
    [intros H; inversion H; subst; split; [reflexivity | exact I]|].
  destruct (fw_forward _ _ flat) as [x | output];
    [intros H; inversion H; subst; split; [reflexivity | exact I]|].
  destruct (fw_criterion _ output labels) as [x | loss];
    [intros H; inversion H; subst; split; [reflexivity | exact I]|].
  destruct (fw_backward loss) as [x | g];
    intros H; inversion H; subst; split; try reflexivity; exact I.
Qed.

(** The inner loop completes when every pass does. *)
Lemma for_batches_progress nb batches : forall rl w,
  Forall (fun g => g <> None) (gradients_along nb w batches) ->
  exists w' t v, for_batches (training_pass nb) batches rl w = (w', t, inr v).
Proof.
  induction batches as [| [images labels] rest IH]; intros rl w H.
  - cbn. unfold ret. eauto.
  - cbn [gradients_along] in H. inversion H as [| g gs Hg Hrest]; subst.
    destruct (pass_progress nb images labels rl w Hg) as (w1 & t1 & v1 & H1).
    pose proof (f_equal final H1) as Hw. cbn [final fst] in Hw.
    rewrite (training_pass_final nb images labels rl py_zero) in Hw.
    rewrite Hw in Hrest.
    destruct (IH v1 w1 Hrest) as (w2 & t2 & v2 & H2).
    exists w2, ([EvNext (images, labels)] ++ t1 ++ t2), v2.
    cbn [for_batches].
    apply (bind_value _ _ w w [EvNext (images, labels)] tt); [reflexivity|].
    apply (bind_value _ _ w w1 t1 v1); assumption.
Qed.

(** The inner loop, however it ends: the loader is not iterated again and
    the batches drawn are an initial part of the list; when it completes,
    the numbers summed are the losses of the batches. *)
Lemma for_batches_items nb batches : forall rl w w' t r,
  for_batches (training_pass nb) batches rl w = (w', t, r) ->
  loader_iterations t = 0%nat /\
  (exists rest, batches = drawn t ++ rest) /\
  match r with
  | inr _ => map Some (items t) = losses_along nb w batches
  | inl _ => True
  end.
Proof.
  induction batches as [| [images labels] rest IH]; intros rl w w' t r H.
  - inversion H; subst. split; [reflexivity|]. split; [exists []; reflexivity|].
    reflexivity.
  - cbn [for_batches] in H. apply bind_inv in H.
    destruct H as [(x & H & _) | (w1 & t1 & [] & t2 & H1 & H2 & ->)];
      [discriminate H|].
    inversion H1; subst; clear H1.
    apply bind_inv in H2.
    destruct H2 as [(x & H2 & ->) | (w2 & t3 & rl2 & t4 & H2 & H3 & ->)].
    + pose proof (training_pass_facts _ _ _ _ _ _ _ _ H2) as (_ & Hd & _).
      apply pass_item in H2. destruct H2 as (Hi & _).
      split; [rewrite loader_iterations_app, Hi; reflexivity|].
      split; [|exact I].
      exists rest. rewrite drawn_app, Hd. reflexivity.
    + pose proof (training_pass_facts _ _ _ _ _ _ _ _ H2) as (_ & Hd & _).
      pose proof (f_equal final H2) as Hw. cbn [final fst] in Hw.
      rewrite (training_pass_final nb images labels rl py_zero) in Hw.
      apply pass_item in H2. destruct H2 as (Hi & Hl).
      apply IH in H3. destruct H3 as (Hi' & (rest' & Hrest) & H3).
      split; [rewrite !loader_iterations_app, Hi, Hi'; reflexivity|].
      split.
      * exists rest'. rewrite !drawn_app, Hd. cbn. rewrite <- Hrest. reflexivity.
      * destruct r as [x | v]; [exact I|].
        rewrite !items_app, !map_app, Hl, H3. cbn [losses_along].
        rewrite Hw. reflexivity.
Qed.

Lemma losses_along_length nb batches : forall w,
  length (losses_along nb w batches) = length batches.
Proof.
  induction batches as [| [images labels] rest IH]; intros w; [reflexivity|].
  cbn [losses_along length]. rewrite IH. reflexivity.
Qed.

(** ** One epoch *)

(** The epoch after its inner loop has completed. *)
Lemma epoch_run nb w w2 t2 rl :
  for_batches (training_pass nb) (fst (fw_iter (rng w))) py_zero
    (with_rng w (snd (fw_iter (rng w)))) = (w2, t2, inr rl) ->
  epoch nb w =
  match py_div rl fw_len with
  | inl x => (w2, EvIter :: t2, inl x)
  | inr v => (w2, EvIter :: t2 ++ [EvPrint v], inr tt)
  end.
Proof.
  intros H. rewrite epoch_unfold. unfold bind at 1.
  rewrite iter_trainloader_run. unfold bind at 1. rewrite H.
  unfold bind, lift, log. destruct (py_div rl fw_len) as [x | v].
  - rewrite app_nil_r. reflexivity.
  - reflexivity.
Qed.

(** One epoch, however it ends. *)
Lemma epoch_pass nb w w' t r :
  epoch nb w = (w', t, r) ->
  rng w' = snd (fw_iter (rng w)) /\
  match r with
  | inr _ =>
      one_full_pass t (fst (fw_iter (rng w))) /\
      exists v,
        prints t = [v] /\
        py_div (fold_left py_add (items t) py_zero) fw_len = inr v /\
        map Some (items t)
        = losses_along nb (with_rng w (snd (fw_iter (rng w))))
            (fst (fw_iter (rng w)))
  | inl _ =>
      prints t = [] /\ exists rest, fst (fw_iter (rng w)) = drawn t ++ rest
  end.
Proof.
  intros H. pose proof (epoch_facts _ _ _ _ _ H) as (Hr & Hf).
  split; [exact Hr|].
  rewrite epoch_unfold in H.
  apply bind_inv in H. rewrite iter_trainloader_run in H.
  destruct H as [(x & H & _) | (w1 & t1 & bs & t2 & H1 & H2 & ->)];
    [discriminate H|].
  inversion H1; subst; clear H1.
  apply bind_inv in H2.
  destruct H2 as [(x & H2 & ->) | (w2 & t3 & rl & t4 & H2 & H3 & ->)].
  - split; [exact Hf|].
    apply for_batches_items in H2. destruct H2 as (_ & Hrest & _). exact Hrest.
  - pose proof (for_batches_facts _ _ _ _ _ _ _ H2) as (Hp & _ & Hd & Hl & -> & Ho).
    apply for_batches_items in H2. destruct H2 as (Hi & _ & Hls).
    unfold bind, lift, log in H3.
    destruct (py_div _ fw_len) as [x | v] eqn:Hdiv;
      inversion H3; subst; clear H3.
    + split; [exact Hf|]. exists [].
      rewrite !drawn_app, Hd. cbn. rewrite !app_nil_r. reflexivity.
    + split.
      * exists t3, v. repeat split; assumption.
      * exists v.
        change ([EvIter] ++ t3 ++ [] ++ [EvPrint v])
          with ([EvIter] ++ t3 ++ [EvPrint v]).
        rewrite !prints_app, !items_app, Hp. cbn [prints items flat_map app].
        rewrite app_nil_r. repeat split; assumption.
Qed.

(** ** The outer loop *)

(** The iterations of the outer loop, completed or not: the completed ones
    are full passes over the batches the loader yields, one after the other,
    and the iteration that raises, when there is one, is the last. *)
Lemma for_range_run nb n : forall w w' t r,
  for_range n (epoch nb) w = (w', t, r) ->
  exists ts tl wk,
    t = concat ts ++ tl /\
    for_range (length ts) (epoch nb) w = (wk, concat ts, inr tt) /\
    Forall2 one_full_pass ts (loader_passes (length ts) (rng w)) /\
    Forall (fun te =>
              exists v, prints te = [v] /\
                py_div (fold_left py_add (items te) py_zero) fw_len = inr v) ts /\
    match r with
    | inr _ => length ts = n /\ tl = [] /\ wk = w'
    | inl x => (length ts < n)%nat /\ prints tl = [] /\ epoch nb wk = (w', tl, inl x)
    end.
Proof.
  induction n as [| n IH]; intros w w' t r H.
  - inversion H; subst. exists [], [], w'. cbn.
    split; [reflexivity|]. split; [reflexivity|].
    split; [apply Forall2_nil|]. split; [apply Forall_nil|].
    repeat split.
  - cbn [for_range] in H. apply bind_inv in H.
    destruct H as [(x & H & ->) | (w1 & t1 & [] & t2 & H1 & H2 & ->)].
    + exists [], t, w. cbn. pose proof (epoch_pass _ _ _ _ _ H) as (_ & Hp & _).
      split; [reflexivity|]. split; [reflexivity|].
      split; [apply Forall2_nil|]. split; [apply Forall_nil|].
      split; [lia|]. split; assumption.
    + pose proof (epoch_pass _ _ _ _ _ H1) as (Hr & Hfull & v & Hv & Hdiv & _).
      apply IH in H2.
      destruct H2 as (ts & tl & wk & -> & Hk & Hall & Hvs & Hend).
      exists (t1 :: ts), tl, wk. cbn [concat length loader_passes for_range].
      split; [rewrite app_assoc; reflexivity|].
      split; [apply (bind_value _ _ w w1 t1 tt); assumption|].
      split; [constructor; [exact Hfull | rewrite <- Hr; exact Hall]|].
      split; [constructor; [exists v; auto | exact Hvs]|].
      destruct r as [x | u].
      * destruct Hend as (Hlt & Hp & He). repeat split; try assumption; lia.
      * destruct Hend as (Hlen & -> & ->). repeat split; congruence.
Qed.



(** ** The claims on the training loop *)


(** C2.  In every training pass of both notebooks (the body of the training
    loop, and the single step shown over two cells before it) the four
    operations come in the order forward pass, loss, backward pass, optimizer
    step.  Each operation is made exactly when the framework calls before it
    have returned: when all of them return, the operations made are these
    four, once each, in this order, the loss being computed from the output
    of the model and the labels; when a call raises, the operations made are
    those up to that call and no more. *)
Theorem training_operations_in_order (nb : notebook) (w : World) :
  (forall images labels rl,
     training_ops (events (training_pass nb images labels rl w))
     = match fw_view images with
       | inl _ => []
       | inr flat =>
           OpForward ::
           match fw_forward (model_layers w) (model_params w) flat with
           | inl _ => []
           | inr output =>
               OpLoss ::
               match fw_criterion (criterion w) output labels with
               | inl _ => []
               | inr loss =>
                   OpBackward ::
                   match fw_backward loss with
                   | inl _ => []
                   | inr _ => [OpStep]
                   end
               end
           end
       end /\
     (forall flat output loss g,
        fw_view images = inr flat ->
        fw_forward (model_layers w) (model_params w) flat = inr output ->
        fw_criterion (criterion w) output labels = inr loss ->
        fw_backward loss = inr g ->
        training_ops (events (training_pass nb images labels rl w))
        = [OpForward; OpLoss; OpBackward; OpStep] /\
        result (training_pass nb images labels rl w)
        = inr (py_add rl (fw_item loss))) /\
     exists n,
       training_ops (events (training_pass nb images labels rl w))
         = firstn n pass_order /\
       match result (training_pass nb images labels rl w) with
       | inr v =>
           n = 4%nat /\
           exists flat output loss,
             fw_view images = inr flat /\
             fw_forward (model_layers w) (model_params w) flat = inr output /\
             fw_criterion (criterion w) output labels = inr loss /\
             v = py_add rl (fw_item loss)
       | inl _ => (n < 4)%nat
       end) /\
  training_ops (events ((single_step nb ;; update nb) w))
  = match fst (fw_iter (rng w)) with
    | [] => []
    | (images, labels) :: _ =>
        match fw_resize_ 64 784 images with
        | inl _ => []
        | inr flat =>
            OpForward ::
            match fw_forward (model_layers w) (model_params w) flat with
            | inl _ => []
            | inr output =>
                OpLoss ::
                match fw_criterion (criterion w) output labels with
                | inl _ => []
                | inr loss =>
                    OpBackward ::
                    match fw_backward loss with
                    | inl _ => []
                    | inr _ => [OpStep]
                    end
                end
            end
        end
    end /\
  (forall images labels rest flat output loss g,
     fst (fw_iter (rng w)) = (images, labels) :: rest ->
     fw_resize_ 64 784 images = inr flat ->
     fw_forward (model_layers w) (model_params w) flat = inr output ->
     fw_criterion (criterion w) output labels = inr loss ->
     fw_backward loss = inr g ->
     training_ops (events (single_step nb w)) = [OpForward; OpLoss; OpBackward] /\
     training_ops (events ((single_step nb ;; update nb) w))
     = [OpForward; OpLoss; OpBackward; OpStep] /\
     result ((single_step nb ;; update nb) w) = inr tt) /\
  (exists n,
     training_ops (events ((single_step nb ;; update nb) w))
       = firstn n pass_order /\
     match result ((single_step nb ;; update nb) w) with
     | inr _ => n = 4%nat
     | inl _ => (n < 4)%nat
     end).
Proof.
  split; [|split; [|split]].
  - intros images labels rl. rewrite training_pass_run.
    split; [|split].
    + destruct (fw_view images) as [x | flat]; [reflexivity|].
      destruct (fw_forward _ _ flat) as [x | output]; [reflexivity|].
      destruct (fw_criterion _ output labels) as [x | loss]; [reflexivity|].
      destruct (fw_backward loss) as [x | g]; reflexivity.
    + intros flat output loss g -> -> -> ->. split; reflexivity.
    + destruct (fw_view images) as [x | flat] eqn:Ev;
        [exists 0%nat; split; [reflexivity | cbn; lia]|].
      destruct (fw_forward _ _ flat) as [x | output] eqn:Ef;
        [exists 1%nat; split; [reflexivity | cbn; lia]|].
      destruct (fw_criterion _ output labels) as [x | loss] eqn:El;
        [exists 2%nat; split; [reflexivity | cbn; lia]|].
      destruct (fw_backward loss) as [x | g];
        [exists 3%nat; split; [reflexivity | cbn; lia]|].
      exists 4%nat. split; [reflexivity|]. cbn. split; [reflexivity|].
      exists flat, output, loss. auto.
  - unfold bind. rewrite single_step_run.
    destruct (fst (fw_iter (rng w))) as [| [images labels] rest]; [reflexivity|].
    destruct (fw_resize_ 64 784 images) as [x | flat]; [reflexivity|].
    destruct (fw_forward _ _ flat) as [x | output]; [reflexivity|].
    destruct (fw_criterion _ output labels) as [x | loss]; [reflexivity|].
    destruct (fw_backward loss) as [x | g]; [reflexivity|].
    rewrite update_run. reflexivity.
  - intros images labels rest flat output loss g Hb Hv Hf Hl Hg.
    unfold bind. rewrite single_step_run, Hb, Hv, Hf, Hl, Hg, update_run.
    repeat split; reflexivity.
  - unfold bind. rewrite single_step_run.
    destruct (fst (fw_iter (rng w))) as [| [images labels] rest];
      [exists 0%nat; split; [reflexivity | cbn; lia]|].
    destruct (fw_resize_ 64 784 images) as [x | flat];
      [exists 0%nat; split; [reflexivity | cbn; lia]|].
    destruct (fw_forward _ _ flat) as [x | output];
      [exists 1%nat; split; [reflexivity | cbn; lia]|].
    destruct (fw_criterion _ output labels) as [x | loss];
      [exists 2%nat; split; [reflexivity | cbn; lia]|].
    destruct (fw_backward loss) as [x | g];
      [exists 3%nat; split; [reflexivity | cbn; lia]|].
    rewrite update_run. exists 4%nat. split; reflexivity.
Qed.

(** C3.  Each iteration of the outer loop of the training cell is one full
    pass over the data.  From any state, an iteration that completes has
    iterated the loader once and drawn every batch the loader yields for
    that pass exactly once, in order, each through a complete training pass,
    before its one print, which is its last event; the iteration does
    complete when every pass over these batches and the final division
    return.  An iteration that raises has printed nothing and has drawn an
    initial part of the batches only.  In a run of the cell, completed or
    not, the iterations that completed are such full passes over the
    successive lists of the loader: all five when the run completes, and
    otherwise those before the iteration that raised. *)
Theorem every_epoch_one_full_pass (nb : notebook) :
  (forall w w' t r,
     epoch nb w = (w', t, r) ->
     rng w' = snd (fw_iter (rng w)) /\
     match r with
     | inr _ => one_full_pass t (fst (fw_iter (rng w)))
     | inl _ =>
         prints t = [] /\ exists rest, fst (fw_iter (rng w)) = drawn t ++ rest
     end) /\
  (forall w,
     Forall (fun g => g <> None)
       (gradients_along nb (with_rng w (snd (fw_iter (rng w))))
          (fst (fw_iter (rng w)))) ->
     (forall rl, exists v, py_div rl fw_len = inr v) ->
     exists w' t, epoch nb w = (w', t, inr tt)) /\
  (forall w w' t r,
     train nb w = (w', t, r) ->
     exists ts tl,
       t = setup_events ++ concat ts ++ tl /\
       Forall2 one_full_pass ts
         (loader_passes (length ts) (rng (after_setup nb w))) /\
       match r with
       | inr _ => length ts = 5%nat /\ tl = []
       | inl x =>
           (length ts < 5)%nat /\ prints tl = [] /\
           exists wk,
             for_range (length ts) (epoch nb) (after_setup nb w)
             = (wk, concat ts, inr tt) /\
             epoch nb wk = (w', tl, inl x)
       end).
Proof.
  split; [|split].
  - intros w w' t r H. apply epoch_pass in H. destruct H as (Hr & H).
    split; [exact Hr|]. destruct r as [x | u]; [exact H | apply H].
  - intros w Hg Hdiv.
    destruct (for_batches_progress nb _ py_zero _ Hg) as (w2 & t2 & rl & H).
    rewrite (epoch_run _ _ _ _ _ H).
    destruct (Hdiv rl) as (v & ->). eauto.
  - intros w w' t r. rewrite train_unfold.
    destruct (for_range 5 (epoch nb) (after_setup nb w)) as [[w2 t2] r2] eqn:E.
    intros H. inversion H; subst; clear H.
    apply for_range_run in E.
    destruct E as (ts & tl & wk & -> & Hk & Hfull & _ & Hend).
    exists ts, tl. split; [reflexivity|]. split; [exact Hfull|].
    destruct r as [x | u].
    + destruct Hend as (Hlt & Hp & He). repeat split; try assumption.
      exists wk. auto.
    + destruct Hend as (Hlen & -> & _). auto.
Qed.

(** C9.  The loader yielding [len(trainloader)] batches, the value printed
    as training loss by an iteration of the outer loop is the arithmetic
    mean of the losses of its batches: the numbers [loss.item()] of the
    losses that the model, with the parameters of the moment, and the
    criterion give for each batch, added up from zero in order and divided
    by their count.  It is printed once, as the last event of the epoch,
    after the inner loop has run over every batch; an epoch that an
    exception interrupts prints nothing.  The value is printed whenever
    every pass and the division return. *)
Theorem training_loss_is_mean (nb : notebook) (w : World) :
  length (fst (fw_iter (rng w))) = fw_len ->
  (forall w' t r,
     epoch nb w = (w', t, r) ->
     match r with
     | inr _ =>
         exists ls v,
           losses_along nb (with_rng w (snd (fw_iter (rng w))))
             (fst (fw_iter (rng w))) = map Some ls /\
           items t = ls /\
           length ls = length (fst (fw_iter (rng w))) /\
           py_div (fold_left py_add ls py_zero) (length ls) = inr v /\
           prints t = [v] /\
           exists t0,
             t = EvIter :: t0 ++ [EvPrint v] /\ prints t0 = [] /\
             drawn t0 = fst (fw_iter (rng w))
     | inl _ => prints t = []
     end) /\
  (forall ls v,
     Forall (fun g => g <> None)
       (gradients_along nb (with_rng w (snd (fw_iter (rng w))))
          (fst (fw_iter (rng w)))) ->
     losses_along nb (with_rng w (snd (fw_iter (rng w))))
       (fst (fw_iter (rng w))) = map Some ls ->
     py_div (fold_left py_add ls py_zero) (length ls) = inr v ->
     exists w' t, epoch nb w = (w', t, inr tt) /\ prints t = [v]).
Proof.
  intros Hlen.
  assert (Hcount : forall ls,
            losses_along nb (with_rng w (snd (fw_iter (rng w))))
              (fst (fw_iter (rng w))) = map Some ls ->
            length ls = fw_len).
  { intros ls Hls. apply (f_equal (@length _)) in Hls.
    rewrite length_map, losses_along_length in Hls. congruence. }
  split.
  - intros w' t r H. apply epoch_pass in H. destruct H as (_ & H).
    destruct r as [x | u]; [apply H|].
    destruct H as ((t0 & v0 & Ht & _ & Hp0 & Hd & _) & v & Hv & Hdiv & Hls).
    exists (items t), v.
    symmetry in Hls. pose proof (Hcount _ Hls) as Hn.
    split; [exact Hls|]. split; [reflexivity|].
    split; [congruence|]. split; [rewrite Hn; exact Hdiv|].
    split; [exact Hv|].
    exists t0. subst t.
    change (EvIter :: t0 ++ [EvPrint v0]) with ([EvIter] ++ t0 ++ [EvPrint v0]) in Hv.
    rewrite !prints_app, Hp0 in Hv. cbn in Hv. inversion Hv; subst.
    auto.
  - intros ls v Hg Hls Hdiv.
    destruct (for_batches_progress nb _ py_zero _ Hg) as (w2 & t2 & rl & H).
    pose proof (for_batches_facts _ _ _ _ _ _ _ H) as (Hp & _ & _ & _ & Hrl & _).
    pose proof (for_batches_items _ _ _ _ _ _ _ H) as (_ & _ & Hi).
    rewrite Hls in Hi.
    assert (Hitems : items t2 = ls).
    { revert Hi. generalize (items t2) as l. clear. intros l. revert ls.
      induction l as [| a l IH]; intros [| b ls] H; try discriminate H.
      - reflexivity.
      - cbn in H. inversion H; subst. f_equal. apply IH. assumption. }
    rewrite (epoch_run _ _ _ _ _ H), Hrl, Hitems, <- (Hcount _ Hls), Hdiv.
    eexists. eexists. split; [reflexivity|].
    change (EvIter :: t2 ++ [EvPrint v]) with ([EvIter] ++ t2 ++ [EvPrint v]).
    rewrite !prints_app, Hp. reflexivity.
Qed.

End Epochs.

(** * Further results on reshaping *)

Section MoreReshaping.

Variable A : Type.

Lemma tensor_eq (a b : tensor A) :
  shape a = shape b -> data a = data b -> a = b.
Proof. destruct a, b. cbn. intros -> ->. reflexivity. Qed.

Lemma firstn_row (c n : nat) (l : list A) :
  length l = (S n * c)%nat -> length (firstn c l) = c.
Proof. intros H. rewrite length_firstn. cbn in H. lia. Qed.

(** X13.  The reshapes of the prediction cell.  On a batch of at least one image
    [images[0]] is the first 784 values as one image of 28 by 28 pixels;
    [view(1, 784)] flattens it without touching a value, and
    [view(1, 28, 28)] on the result gives the image back.  On an empty
    batch [images[0]] raises. *)
Theorem prediction_reshapes_round_trip (n : nat) (t : tensor A) :
  is_batch n t ->
  match n with
  | O => tensor_first t = None
  | S _ =>
      exists image flat,
        tensor_first t = Some image /\
        shape image = [1; 28; 28]%nat /\
        data image = firstn 784 (data t) /\
        well_formed image /\
        tensor_view_as [1; 784]%nat image = Some flat /\
        shape flat = [1; 784]%nat /\
        data flat = data image /\
        tensor_view_as [1; 28; 28]%nat flat = Some image
  end.
Proof.
  intros Hb. pose proof (batch_length A n t Hb) as Hl.
  destruct Hb as [Hs Hw]. unfold tensor_first. rewrite Hs.
  destruct n as [| n]; [reflexivity|].
  eexists. eexists. split; [reflexivity|]. cbn [shape data].
  split; [reflexivity|]. split; [reflexivity|]. split.
  - unfold well_formed. cbn [shape data].
    change (numel [1; 28; 28]%nat) with 784%nat.
    apply (firstn_row 784 n). exact Hl.
  - unfold tensor_view_as. cbn [shape data].
    repeat split; reflexivity.
Qed.

(** X14.  The flattening of the single step and the flattening of the training
    loop give the same tensor exactly on a batch of 64 images. *)
Theorem resize_agrees_with_view_iff_64 (uninitialized : nat -> list A)
    (n : nat) (t : tensor A) :
  (forall k, length (uninitialized k) = k) ->
  is_batch n t -> (0 < n)%nat ->
  (tensor_view t = Some (tensor_resize_ uninitialized 64 784 t)
   <-> n = 64%nat).
Proof.
  intros Hu Hb Hn.
  destruct (tensor_view_batch A n t Hb Hn) as (t' & Hv & Hs & Hd & _).
  destruct (tensor_resize_batch A uninitialized Hu n t Hb)
    as (Hrs & _ & Hrd & _).
  rewrite Hv. split.
  - intros E. inversion E as [E']. rewrite E' in Hs. rewrite Hrs in Hs.
    inversion Hs. reflexivity.
  - intros ->. f_equal. apply tensor_eq.
    + rewrite Hs, Hrs. reflexivity.
    + rewrite Hd, (Hrd eq_refl). reflexivity.
Qed.

End MoreReshaping.

(** * The further results at concrete inputs *)

Lemma training_on_empty_loader_witness :
  exists w',
    @train (toy []) Solution toy_world
    = (w', setup_events ++ [EvIter], inl "division by zero").
Proof.
  eexists.
  apply (training_on_empty_loader (F := toy []) Solution toy_world
           "division by zero"); reflexivity.
Defined.

Lemma failed_pass_keeps_parameters_witness :
  result (@training_pass (toy bad_batches) Exercises 0%Z 40%Z 0%Z stale_world)
    = inl "shape mismatch" /\
  model_params
    (final (@training_pass (toy bad_batches) Exercises 0%Z 40%Z 0%Z stale_world))
    = 1%Z.
Proof.
  assert (H : @training_pass (toy bad_batches) Exercises 0%Z 40%Z 0%Z stale_world
              = (final (@training_pass (toy bad_batches) Exercises
                          0%Z 40%Z 0%Z stale_world),
                 events (@training_pass (toy bad_batches) Exercises
                           0%Z 40%Z 0%Z stale_world),
                 inl "shape mismatch"))
    by (vm_compute; reflexivity).
  split; [rewrite H; reflexivity|].
  exact (proj1 (failed_pass_keeps_parameters (F := toy bad_batches)
                  Exercises _ _ _ _ _ _ _ H)).
Defined.

Lemma completed_pass_is_one_sgd_step_witness :
  exists g,
    @batch_gradient (toy good_batches) stale_world 10%Z 20%Z = Some g /\
    model_params
      (final (@training_pass (toy good_batches) Solution 10%Z 20%Z 0%Z
                stale_world))
    = @fw_SGD_step (toy good_batches) 0.003%Q 1%Z g.
Proof.
  assert (H : @training_pass (toy good_batches) Solution 10%Z 20%Z 0%Z stale_world
              = (final (@training_pass (toy good_batches) Solution
                          10%Z 20%Z 0%Z stale_world),
                 events (@training_pass (toy good_batches) Solution
                           10%Z 20%Z 0%Z stale_world),
                 inr 100%Z))
    by (vm_compute; reflexivity).
  destruct (completed_pass_is_one_sgd_step (F := toy good_batches)
              Solution _ _ _ _ _ _ _ (toy_zero_add good_batches) H)
    as (g & Hg & Hp & _).
  exists g. split; [exact Hg | exact Hp].
Defined.

Lemma training_cell_rebuilds_its_model_witness :
  @train (toy good_batches) Solution toy_world
  = @train (toy good_batches) Solution stale_world.
Proof.
  exact (proj1 (training_cell_rebuilds_its_model (F := toy good_batches)
                  Solution toy_world stale_world eq_refl)).
Defined.

Lemma drawing_from_empty_loader_witness :
  @single_step (toy []) Solution toy_world
  = (@with_rng (toy []) toy_world 2%nat, [EvPrintTensor; EvIter],
     inl "StopIteration").
Proof.
  exact (proj1 (drawing_from_empty_loader (F := toy []) Solution toy_world
                  eq_refl eq_refl eq_refl)).
Defined.

Lemma backward_cell_sets_gradient_witness :
  exists w1 t1 loss w2 t2,
    @loss_cell (toy good_batches) Solution toy_world = (w1, t1, inr loss) /\
    @backward_cell (toy good_batches) Solution loss w1 = (w2, t2, inr tt) /\
    model_grad w1 = None /\ model_grad w2 = Some (-400)%Z.
Proof.
  assert (H1 : @loss_cell (toy good_batches) Solution toy_world
               = (final (@loss_cell (toy good_batches) Solution toy_world),
                  events (@loss_cell (toy good_batches) Solution toy_world),
                  inr (400, -400)%Z))
    by (vm_compute; reflexivity).
  assert (H2 : @backward_cell (toy good_batches) Solution (400, -400)%Z
                 (final (@loss_cell (toy good_batches) Solution toy_world))
               = (final (@backward_cell (toy good_batches) Solution
                           (400, -400)%Z
                           (final (@loss_cell (toy good_batches) Solution
                                     toy_world))),
                  events (@backward_cell (toy good_batches) Solution
                            (400, -400)%Z
                            (final (@loss_cell (toy good_batches) Solution
                                      toy_world))),
                  inr tt))
    by (vm_compute; reflexivity).
  destruct (backward_cell_sets_gradient (F := toy good_batches) Solution
              _ _ _ _ _ _ H1 H2)
    as (Hnone & images & labels & rest & g & _ & _ & Hb & Hg & _).
  do 5 eexists. split; [exact H1|]. split; [exact H2|].
  split; [exact Hnone|]. rewrite Hg. vm_compute in Hb. inversion Hb.
  reflexivity.
Defined.

Lemma single_step_is_one_training_pass_witness :
  model_params
    (final ((@single_step (toy good_batches) Solution ;;
             @update (toy good_batches) Solution) stale_world))
  = model_params
      (final (@training_pass (toy good_batches) Solution 20%Z 40%Z 0%Z
                stale_world)).
Proof.
  exact (proj1 (single_step_is_one_training_pass (F := toy good_batches)
                  Solution stale_world 20%Z 40%Z [(10, 20)%Z] 0%Z
                  eq_refl eq_refl)).
Defined.

Lemma demonstration_step_reads_fresh_gradient_witness :
  stepped (events (@demonstration (toy good_batches) Solution toy_world))
  = [Some (-1600)%Z] /\
  exists g,
    model_params (final (@demonstration (toy good_batches) Solution toy_world))
    = @fw_SGD_step (toy good_batches) 0.01%Q 0%Z g.
Proof.
  split; [vm_compute; reflexivity|].
  assert (H : @demonstration (toy good_batches) Solution toy_world
              = (final (@demonstration (toy good_batches) Solution toy_world),
                 events (@demonstration (toy good_batches) Solution toy_world),
                 inr tt))
    by (vm_compute; reflexivity).
  destruct (demonstration_step_reads_fresh_gradient (F := toy good_batches)
              Solution _ _ _ (toy_zero_add good_batches) H)
    as (g1 & w1 & images & labels & rest & g2 & _ & _ & _ & _ & _ & _ & _ & _ & Hp).
  exists g2. exact Hp.
Defined.

Lemma prediction_reshapes_round_trip_witness :
  exists image flat,
    tensor_first two_images = Some image /\
    tensor_view_as [1; 784]%nat image = Some flat /\
    tensor_view_as [1; 28; 28]%nat flat = Some image.
Proof.
  assert (Hb : is_batch 2 two_images) by (split; reflexivity).
  destruct (prediction_reshapes_round_trip nat 2 two_images Hb)
    as (image & flat & H1 & _ & _ & _ & H2 & _ & _ & H3).
  exists image, flat. repeat split; assumption.
Defined.

Lemma resize_agrees_with_view_iff_64_witness :
  tensor_view two_images = Some (tensor_resize_ zero_filled 64 784 two_images)
  <-> 2%nat = 64%nat.
Proof.
  assert (Hb : is_batch 2 two_images) by (split; reflexivity).
  exact (resize_agrees_with_view_iff_64 nat zero_filled 2 two_images
           (fun k => repeat_length 0%nat k) Hb (Nat.lt_0_succ 1)).
Defined.

Lemma inner_loop_is_sgd_witness :
  exists gs,
    length gs = 2%nat /\
    model_params
      (final (@for_batches (toy good_batches)
                (@training_pass (toy good_batches) Solution)
                good_batches 0%Z stale_world))
    = @sgd_steps (toy good_batches) 0.003%Q 1%Z gs.
Proof.
  assert (H : @for_batches (toy good_batches)
                (@training_pass (toy good_batches) Solution)
                good_batches 0%Z stale_world
              = (final (@for_batches (toy good_batches)
                          (@training_pass (toy good_batches) Solution)
                          good_batches 0%Z stale_world),
                 events (@for_batches (toy good_batches)
                           (@training_pass (toy good_batches) Solution)
                           good_batches 0%Z stale_world),
                 inr 100%Z))
    by (vm_compute; reflexivity).
  destruct (inner_loop_is_sgd (F := toy good_batches) Solution _ _ _ _ _ _
              (toy_zero_add good_batches) H) as (gs & Hl & _ & Hp).
  exists gs. split; [exact Hl | exact Hp].
Defined.
(** * The training loop at concrete inputs *)



Lemma training_operations_in_order_witness :
  training_ops
    (events (@training_pass (toy good_batches) Solution 10%Z 20%Z 0%Z toy_world))
    = [OpForward; OpLoss; OpBackward; OpStep] /\
  training_ops
    (events (@training_pass (toy good_batches) Exercises 10%Z 20%Z 0%Z toy_world))
    = [OpForward; OpLoss; OpBackward; OpStep] /\
  training_ops
    (events (@bind (toy good_batches) unit unit
               (@single_step (toy good_batches) Solution)
               (fun _ => @update (toy good_batches) Solution) toy_world))
    = [OpForward; OpLoss; OpBackward; OpStep] /\
  training_ops
    (events (@bind (toy good_batches) unit unit
               (@single_step (toy good_batches) Exercises)
               (fun _ => @update (toy good_batches) Exercises) toy_world))
    = [OpForward; OpLoss; OpBackward; OpStep] /\
  training_ops
    (events (@training_pass (toy bad_batches) Solution 0%Z 40%Z 0%Z toy_world))
    = [OpForward].
Proof.
  destruct (training_operations_in_order (F := toy good_batches)
              Solution toy_world) as (Hs & _ & Hs' & _).
  destruct (training_operations_in_order (F := toy good_batches)
              Exercises toy_world) as (He & _ & He' & _).
  destruct (training_operations_in_order (F := toy bad_batches)
              Solution toy_world) as (Hb & _).
  split; [|split; [|split; [|split]]].
  - exact (proj1 (proj1 (proj2 (Hs 10 20 0)%Z) 10%Z (0, 10)%Z (400, -400)%Z
                   (-400)%Z eq_refl eq_refl eq_refl eq_refl)).
  - exact (proj1 (proj1 (proj2 (He 10 20 0)%Z) 10%Z (0, 10)%Z (400, -400)%Z
                   (-400)%Z eq_refl eq_refl eq_refl eq_refl)).
  - exact (proj1 (proj2 (Hs' 20%Z 40%Z [(10, 20)%Z] 20%Z (0, 20)%Z
                           (1600, -1600)%Z (-1600)%Z
                           eq_refl eq_refl eq_refl eq_refl eq_refl))).
  - exact (proj1 (proj2 (He' 20%Z 40%Z [(10, 20)%Z] 20%Z (0, 20)%Z
                           (1600, -1600)%Z (-1600)%Z
                           eq_refl eq_refl eq_refl eq_refl eq_refl))).
  - exact (proj1 (Hb 0 40 0)%Z).
Defined.

Lemma every_epoch_one_full_pass_witness :
  (exists w' t,
     @epoch (toy good_batches) Solution toy_world = (w', t, inr tt) /\
     @one_full_pass (toy good_batches) t (rev good_batches)) /\
  (exists w' t,
     @epoch (toy good_batches) Exercises toy_world = (w', t, inr tt) /\
     @one_full_pass (toy good_batches) t (rev good_batches)).
Proof.
  split.
  - destruct (every_epoch_one_full_pass (F := toy good_batches) Solution)
      as (Hpass & Hruns & _).
    destruct (Hruns toy_world) as (w' & t & H).
    + vm_compute. repeat constructor; discriminate.
    + intros rl. eexists. reflexivity.
    + exists w', t. split; [exact H | exact (proj2 (Hpass _ _ _ _ H))].
  - destruct (every_epoch_one_full_pass (F := toy good_batches) Exercises)
      as (Hpass & Hruns & _).
    destruct (Hruns toy_world) as (w' & t & H).
    + vm_compute. repeat constructor; discriminate.
    + intros rl. eexists. reflexivity.
    + exists w', t. split; [exact H | exact (proj2 (Hpass _ _ _ _ H))].
Defined.

Lemma training_loss_is_mean_witness :
  @losses_along (toy good_batches) Solution
    (@with_rng (toy good_batches) stale_world 2%nat) (rev good_batches)
    = [Some 400%Z; Some 400%Z] /\
  (exists w' t,
     @epoch (toy good_batches) Solution stale_world = (w', t, inr tt) /\
     items t = [400; 400]%Z /\ prints t = [400%Z]) /\
  (exists w' t,
     @epoch (toy good_batches) Exercises stale_world = (w', t, inr tt) /\
     items t = [400; 400]%Z /\ prints t = [400%Z]).
Proof.
  split; [vm_compute; reflexivity|]. split.
  - destruct (training_loss_is_mean (F := toy good_batches) Solution
                stale_world eq_refl) as (Hmean & Hruns).
    destruct (Hruns [400; 400]%Z 400%Z) as (w' & t & H & Hp).
    + vm_compute. repeat constructor; discriminate.
    + vm_compute. reflexivity.
    + reflexivity.
    + exists w', t. split; [exact H|]. split; [|exact Hp].
      destruct (Hmean _ _ _ H) as (ls & v & Hls & Hi & _).
      rewrite Hi. vm_compute in Hls.
      destruct ls as [| a [| b [| c ls]]]; try discriminate Hls.
      inversion Hls. reflexivity.
  - destruct (training_loss_is_mean (F := toy good_batches) Exercises
                stale_world eq_refl) as (Hmean & Hruns).
    destruct (Hruns [400; 400]%Z 400%Z) as (w' & t & H & Hp).
    + vm_compute. repeat constructor; discriminate.
    + vm_compute. reflexivity.
    + reflexivity.
    + exists w', t. split; [exact H|]. split; [|exact Hp].
      destruct (Hmean _ _ _ H) as (ls & v & Hls & Hi & _).
      rewrite Hi. vm_compute in Hls.
      destruct ls as [| a [| b [| c ls]]]; try discriminate Hls.
      inversion Hls. reflexivity.
Defined.

